(** * ChatWidget: a floating chat panel connected to an HTTP endpoint

    A shallow embedding of [src/chatwidget/chatwidget.js] and the properties
    of its conversation and transport contract.

    The widget is a JavaScript class.  Its methods mutate [this], the DOM
    list of rendered entries and the outside world (the network, the host's
    observer callback, the console).  They are embedded as computations in a
    state-and-exception monad over a record that holds the widget's fields
    together with a chronological trace of the effects on the world.

    An [async] method is run to completion: what the environment answers to
    the one [fetch] of a send is an input of [_onSend].  This is the
    single-flight reading of the code, in which no second send starts while
    one is pending.

    Strings are sequences of 8-bit code units.  A JSON number is kept as its
    decimal notation, since the widget only ever prints it. *)

From Stdlib Require Import String Ascii List Bool Arith NArith Lia.
From Stdlib Require Import DecimalString.
Import ListNotations.
Open Scope string_scope.
Open Scope list_scope.

Set Implicit Arguments.
Set Warnings "-register-all".

(** ** Strings *)

Module JsString.

(** [WhiteSpace] and [LineTerminator] code units below 256: TAB, LF, VT,
    FF, CR, SP and NBSP.  These are what [String.prototype.trim] strips. *)
Definition isWhiteSpace (c : ascii) : bool :=
  match N_of_ascii c with
  | 9%N | 10%N | 11%N | 12%N | 13%N | 32%N | 160%N => true
  | _ => false
  end.

Fixpoint trimStart (s : string) : string :=
  match s with
  | EmptyString => EmptyString
  | String c s' => if isWhiteSpace c then trimStart s' else s
  end.

Fixpoint trimEnd (s : string) : string :=
  match s with
  | EmptyString => EmptyString
  | String c s' =>
      match trimEnd s' with
      | EmptyString => if isWhiteSpace c then EmptyString else String c EmptyString
      | t => String c t
      end
  end.

(** [s.trim()] *)
Definition trim (s : string) : string := trimEnd (trimStart s).

(** Every code unit of the string is white space. *)
Fixpoint whitespace_only (s : string) : bool :=
  match s with
  | EmptyString => true
  | String c s' => isWhiteSpace c && whitespace_only s'
  end.

(** [!s] for a string: only the empty string is falsy. *)
Definition falsy (s : string) : bool :=
  match s with EmptyString => true | _ => false end.

(** [xs.join(sep)] on strings. *)
Fixpoint join (sep : string) (xs : list string) : string :=
  match xs with
  | [] => ""
  | [x] => x
  | x :: rest => x ++ sep ++ join sep rest
  end.

(** Decimal notation of a natural number, as [Number::toString] prints a
    non-negative integer below 10^21. *)
Definition of_N (n : N) : string := NilZero.string_of_uint (N.to_uint n).

Definition hex_digit (n : N) : ascii :=
  match n with
  | 0 => "0" | 1 => "1" | 2 => "2" | 3 => "3" | 4 => "4" | 5 => "5"
  | 6 => "6" | 7 => "7" | 8 => "8" | 9 => "9" | 10 => "a" | 11 => "b"
  | 12 => "c" | 13 => "d" | 14 => "e" | _ => "f"
  end%N%char.

(** [QuoteJSONString]: the escapes of [JSON.stringify] for one code unit. *)
Definition quote_char (c : ascii) : string :=
  let n := N_of_ascii c in
  match n with
  | 8%N => "\b"
  | 9%N => "\t"
  | 10%N => "\n"
  | 12%N => "\f"
  | 13%N => "\r"
  | 34%N => String "\" (String c "")
  | 92%N => "\\"
  | _ =>
      if (n <? 32)%N
      then "\u00" ++ String (hex_digit (n / 16)) (String (hex_digit (n mod 16)) "")
      else String c ""
  end.

Fixpoint quote_body (s : string) : string :=
  match s with
  | EmptyString => ""
  | String c s' => quote_char c ++ quote_body s'
  end.

Definition dquote : string := String (ascii_of_N 34) "".

Definition quote (s : string) : string := dquote ++ quote_body s ++ dquote.

End JsString.

Import JsString.

(** ** JSON values

    What [Response.json()] hands to the widget.  An object is the list of its
    own properties in enumeration order; [JSON.parse] creates each of them as
    an own data property, a key such as [toString] included. *)

(** A JSON number is a double.  The widget never computes with one: it only
    prints it, serializes it and tests it for truth.  A number is therefore
    kept as its notation, the string [Number::toString] gives for it; both
    zeroes are written 0. *)
Definition number : Type := string.

(** [Number::toString(n)] *)
Definition Number_toString (n : number) : string := n.

(** False for the infinities [JSON.parse] yields on overflow. *)
Definition Number_isFinite (n : number) : bool :=
  negb (String.eqb n "Infinity" || String.eqb n "-Infinity" || String.eqb n "NaN").

(** [ToBoolean] on a number: false for the zeroes and for NaN. *)
Definition Number_toBoolean (n : number) : bool :=
  negb (String.eqb n "0" || String.eqb n "NaN").

Inductive value : Type :=
| VNull
| VBool (b : bool)
| VNum (n : number)
| VStr (s : string)
| VArr (elements : list value)
| VObj (properties : list (string * value)).

(** [o[key]] on the own properties of an object. *)
Fixpoint own_property (key : string) (props : list (string * value)) : option value :=
  match props with
  | [] => None
  | (k, v) :: rest => if String.eqb k key then Some v else own_property key rest
  end.

(** [j.key], with [None] for [undefined].  A parsed object inherits nothing
    named reply, replies or text, and neither does a primitive or an array. *)
Definition get (j : value) (key : string) : option value :=
  match j with
  | VObj props => own_property key props
  | _ => None
  end.

(** [ToBoolean], as in [!j] and [if (j.text)]. *)
Definition ToBoolean (v : value) : bool :=
  match v with
  | VNull => false
  | VBool b => b
  | VNum n => Number_toBoolean n
  | VStr s => negb (falsy s)
  | VArr _ => true
  | VObj _ => true
  end.

(** Truthiness of a property read, [undefined] being falsy. *)
Definition truthy (o : option value) : bool :=
  match o with
  | Some v => ToBoolean v
  | None => false
  end.

(** Every string, in order, or [None] as soon as one is missing. *)
Fixpoint sequence (xs : list (option string)) : option (list string) :=
  match xs with
  | [] => Some []
  | None :: _ => None
  | Some s :: rest =>
      match sequence rest with
      | Some ss => Some (s :: ss)
      | None => None
      end
  end.

(** [String(v)].  [None] stands for the [TypeError] of [OrdinaryToPrimitive]:
    an object whose own [toString] property shadows the inherited method with
    a value that is not callable cannot be converted.  An array is joined with
    commas, [null] elements printing as nothing. *)
Fixpoint ToString (v : value) : option string :=
  match v with
  | VNull => Some "null"
  | VBool b => Some (if b then "true" else "false")
  | VNum n => Some (Number_toString n)
  | VStr s => Some s
  | VArr xs =>
      let element x :=
        match x with
        | VNull => Some ""
        | _ => ToString x
        end in
      option_map (join ",") (sequence (map element xs))
  | VObj props =>
      match own_property "toString" props with
      | Some _ => None
      | None => Some "[object Object]"
      end
  end.

(** [JSON.stringify(v)] without indentation. *)
Fixpoint JSON_stringify (v : value) : string :=
  match v with
  | VNull => "null"
  | VBool b => if b then "true" else "false"
  | VNum n => if Number_isFinite n then Number_toString n else "null"
  | VStr s => quote s
  | VArr xs => ("[" ++ join "," (map JSON_stringify xs) ++ "]")%string
  | VObj props =>
      let member kv := (quote (fst kv) ++ ":" ++ JSON_stringify (snd kv))%string in
      ("{" ++ join "," (map member props) ++ "}")%string
  end.

(** ** The widget and the world around it *)

(** What a [throw] carries. *)
Inductive exn : Type :=
| Error (message : string)
| TypeError (message : string).

(** The CSS class of a rendered message: [msg user] or [msg bot]. *)
Inductive author : Type := user | bot.

(** A child of the message list [this.messages]. *)
Inductive node : Type :=
| Msg (cls : author) (text : string)
| Typing (data_typing_id : string).

(** The second argument of [fetch]; the body sent is the serialized payload. *)
Record Request : Type := {
  url : string;
  method : string;
  content_type : string;
  credentials : string;
  payload : value
}.

Definition body (r : Request) : string := JSON_stringify (payload r).

(** Effects on the page and on the outside world, in the order they happen. *)
Inductive event : Type :=
| DomChildren (children : list node)
| ScrollBottom
| InputValue (v : string)
| ObserverCall (arg : value) (thrown : option exn)
| Fetch (r : Request)
| ConsoleError (label : string) (e : exn).

(** A host callback: it sees its argument and whatever happened before, and
    either returns ([None]) or throws. *)
Definition observer : Type := list event -> value -> option exn.

(** [this.opts], after [defaultOptions] were merged in.  The options that only
    style the panel (icons, title, placeholder, theme, position) are left out.
    [onMessageReceived] is [None] unless the host passed a function. *)
Record Options : Type := {
  endpoint : string;
  opts_sessionId : option string;
  onMessageReceived : option observer
}.

(** The fields of a [ChatWidget], then the page it lives in. *)
Record ChatWidget : Type := {
  opts : Options;
  sessionId : string;
  isOpen : bool;
  (** children of [this.messages] *)
  messages : list node;
  (** [this.textarea.value] *)
  textarea : string;
  (** [location.href] *)
  location_href : string;
  trace : list event
}.

Definition set_messages (ms : list node) (w : ChatWidget) : ChatWidget :=
  {| opts := opts w; sessionId := sessionId w; isOpen := isOpen w;
     messages := ms; textarea := textarea w;
     location_href := location_href w; trace := trace w |}.

Definition set_textarea (v : string) (w : ChatWidget) : ChatWidget :=
  {| opts := opts w; sessionId := sessionId w; isOpen := isOpen w;
     messages := messages w; textarea := v;
     location_href := location_href w; trace := trace w |}.

Definition log (e : event) (w : ChatWidget) : ChatWidget :=
  {| opts := opts w; sessionId := sessionId w; isOpen := isOpen w;
     messages := messages w; textarea := textarea w;
     location_href := location_href w; trace := trace w ++ [e] |}.

(** *** Computations that may throw *)

Inductive completion (A : Type) : Type :=
| Normal (a : A)
| Abrupt (e : exn).

Arguments Abrupt {A} e.
Arguments Normal {A} a.

Definition M (A : Type) : Type := ChatWidget -> completion A * ChatWidget.

Definition ret {A} (a : A) : M A := fun w => (Normal a, w).

Definition throw {A} (e : exn) : M A := fun w => (Abrupt e, w).

Definition bind {A B} (m : M A) (k : A -> M B) : M B :=
  fun w =>
    match m w with
    | (Normal a, w') => k a w'
    | (Abrupt e, w') => (Abrupt e, w')
    end.

Definition gets {A} (f : ChatWidget -> A) : M A := fun w => (Normal (f w), w).

Definition modify (f : ChatWidget -> ChatWidget) : M unit := fun w => (Normal tt, f w).

(** [try { body } catch (e) { handler e }] *)
Definition try_catch {A} (body : M A) (handler : exn -> M A) : M A :=
  fun w =>
    match body w with
    | (Normal a, w') => (Normal a, w')
    | (Abrupt e, w') => handler e w'
    end.

(** [try { body } finally { final }] *)
Definition try_finally {A} (body : M A) (final : M unit) : M A :=
  fun w =>
    match body w with
    | (c, w') =>
        match final w' with
        | (Normal _, w'') => (c, w'')
        | (Abrupt e, w'') => (Abrupt e, w'')
        end
    end.

(** [xs.forEach(f)] *)
Fixpoint forEach {A} (f : A -> M unit) (xs : list A) : M unit :=
  match xs with
  | [] => ret tt
  | x :: rest => bind (f x) (fun _ => forEach f rest)
  end.

Declare Scope js_scope.
Delimit Scope js_scope with js.
Notation "x <- m ;; k" := (bind m (fun x => k))
  (at level 61, m at next level, right associativity) : js_scope.
Notation "m ;; k" := (bind m (fun _ => k))
  (at level 61, right associativity) : js_scope.
Local Open Scope js_scope.

(** *** Primitive effects *)

Definition emit (e : event) : M unit := modify (log e).

(** [this.messages.appendChild(n)] *)
Definition appendChild (n : node) : M unit :=
  fun w =>
    let ms := messages w ++ [n] in
    (Normal tt, log (DomChildren ms) (set_messages ms w)).

Definition is_typing (n : node) : bool :=
  match n with
  | Typing _ => true
  | Msg _ _ => false
  end.

Fixpoint remove_first_typing (ms : list node) : list node :=
  match ms with
  | [] => []
  | n :: rest => if is_typing n then rest else n :: remove_first_typing rest
  end.

(** [n.remove()] for the first typing entry still in the list. *)
Definition remove_typing : M unit :=
  fun w =>
    let ms := remove_first_typing (messages w) in
    (Normal tt, log (DomChildren ms) (set_messages ms w)).

(** [this.textarea.value = v] *)
Definition set_value (v : string) : M unit :=
  fun w => (Normal tt, log (InputValue v) (set_textarea v w)).

(** Calling the host's function. *)
Definition call (f : observer) (arg : value) : M unit :=
  fun w =>
    let thrown := f (trace w) arg in
    (match thrown with
     | None => Normal tt
     | Some e => Abrupt e
     end,
     log (ObserverCall arg thrown) w).

(** [console.error(label, e)] *)
Definition console_error (label : string) (e : exn) : M unit :=
  emit (ConsoleError label e).

(** What the environment answers to a [fetch]: a rejection, or a response
    with its status and what reading its body as text or as JSON gives
    ([None] when that read rejects). *)
Record Response : Type := {
  status : N;
  body_text : option string;
  body_json : option value
}.

Inductive fetch_outcome : Type :=
| Rejected (e : exn)
| Responded (res : Response).

(** [res.ok]: the status is in the range 200 to 299. *)
Definition ok (res : Response) : bool :=
  ((200 <=? status res) && (status res <=? 299))%N.

Definition fetch (net : fetch_outcome) (r : Request) : M Response :=
  fun w =>
    (match net with
     | Rejected e => Abrupt e
     | Responded res => Normal res
     end,
     log (Fetch r) w).

(** [String(x)], where [x] may be [undefined]. *)
Definition String_ (x : option value) : M string :=
  match x with
  | None => ret "undefined"
  | Some v =>
      match ToString v with
      | Some s => ret s
      | None => throw (TypeError "Cannot convert object to primitive value")
      end
  end.

(** *** The methods of [ChatWidget] *)

(** [new ChatWidget(opts)].  [random] is what
    [Math.random().toString(36).slice(2,9)] gives and [href] the address of
    the page.  An empty [sessionId] option is falsy for [||]. *)
Definition new_ChatWidget (o : Options) (random href : string) : ChatWidget :=
  {| opts := o;
     sessionId :=
       match opts_sessionId o with
       | Some s => if falsy s then ("sess_" ++ random)%string else s
       | None => ("sess_" ++ random)%string
       end;
     isOpen := false;
     messages := [];
     textarea := "";
     location_href := href;
     trace := [] |}.

Definition _scrollBottom : M unit := emit ScrollBottom.

(** The class [makeEl] gives the entry: [who === 'user' ? 'user' : 'bot']. *)
Definition class_of (who : string) : author :=
  if String.eqb who "user" then user else bot.

(** The object handed to the observer: [{ who, text, sessionId }]. *)
Definition hook_arg (who text sid : string) : value :=
  VObj [("who", VStr who); ("text", VStr text); ("sessionId", VStr sid)].

Definition _appendMsg (text who : string) : M unit :=
  let c := Msg (class_of who) text in
  appendChild c ;;
  _scrollBottom ;;
  hook <- gets (fun w => onMessageReceived (opts w)) ;;
  match hook with
  | Some f =>
      sid <- gets sessionId ;;
      try_catch (call f (hook_arg who text sid)) (fun _ => ret tt)
  | None => ret tt
  end.

(** [now] is what [Date.now()] returns. *)
Definition _showTyping (now : N) : M string :=
  let el := Typing (of_N now) in
  appendChild el ;;
  _scrollBottom ;;
  ret (of_N now).

Definition _hideTyping (dummy : string) : M unit :=
  nodes <- gets (fun w => filter is_typing (messages w)) ;;
  forEach (fun _ => remove_typing) nodes.

Definition make_payload (message sid href : string) : value :=
  VObj [("message", VStr message);
        ("sessionId", VStr sid);
        ("metadata", VObj [("origin", VStr href)])].

Definition sendMessageToEndpoint (net : fetch_outcome) (message : string) : M unit :=
  ep <- gets (fun w => endpoint (opts w)) ;;
  if falsy ep then throw (Error "ChatWidget: endpoint option required") else
  sid <- gets sessionId ;;
  href <- gets location_href ;;
  res <- fetch net {| url := ep; method := "POST";
                      content_type := "application/json";
                      credentials := "omit";
                      payload := make_payload message sid href |} ;;
  if negb (ok res) then
    let t := match body_text res with Some s => s | None => "null" end in
    throw (Error ("Bad response: " ++ of_N (status res) ++ " " ++ t)%string)
  else
  let j := match body_json res with Some v => v | None => VNull end in
  if negb (ToBoolean j) then throw (Error "Invalid JSON response") else
  match get j "reply" with
  | Some (VStr reply) => _appendMsg reply "bot"
  | _ =>
      match get j "replies" with
      | Some (VArr replies) =>
          forEach (fun r => s <- String_ (Some r) ;; _appendMsg s "bot") replies
      | _ =>
          if truthy (get j "text")
          then s <- String_ (get j "text") ;; _appendMsg s "bot"
          else _appendMsg (JSON_stringify j) "bot"
      end
  end.

Definition apology : string :=
  "Sorry, something went wrong. Please try again later.".

(** [net] is the answer of the environment to the one [fetch] of this send. *)
Definition _onSend (now : N) (net : fetch_outcome) : M unit :=
  v <- gets textarea ;;
  let text := trim v in
  if falsy text then ret tt else
  _appendMsg text "user" ;;
  set_value "" ;;
  typingId <- _showTyping now ;;
  try_finally
    (try_catch
       (sendMessageToEndpoint net text)
       (fun err =>
          console_error "ChatWidget send error" err ;;
          _appendMsg apology "bot"))
    (_hideTyping typingId).

(** ** What a send amounts to

    The same behaviour once more, as plain functions on the widget: the
    entries an exchange resolves to, and the widget after each step.  The
    lemmas of the next part show that the methods above compute exactly
    these. *)

Definition cannot_convert : exn :=
  TypeError "Cannot convert object to primitive value".

(** The strings [String] gives for the elements of an array, up to the first
    element that cannot be converted. *)
Fixpoint coerce_all (rs : list value) : list string * option exn :=
  match rs with
  | [] => ([], None)
  | r :: rest =>
      match ToString r with
      | Some s => let (ss, e) := coerce_all rest in (s :: ss, e)
      | None => ([], Some cannot_convert)
      end
  end.

(** The bot messages a parsed, truthy body resolves to, and the error that
    ends the resolution, if any. *)
Definition resolve (j : value) : list string * option exn :=
  match get j "reply" with
  | Some (VStr reply) => ([reply], None)
  | _ =>
      match get j "replies" with
      | Some (VArr replies) => coerce_all replies
      | _ =>
          match get j "text" with
          | Some v =>
              if ToBoolean v
              then match ToString v with
                   | Some s => ([s], None)
                   | None => ([], Some cannot_convert)
                   end
              else ([JSON_stringify j], None)
          | None => ([JSON_stringify j], None)
          end
      end
  end.

(** The bot messages of a response, and the error it is rejected with. *)
Definition classify (res : Response) : list string * option exn :=
  if negb (ok res) then
    let t := match body_text res with Some s => s | None => "null" end in
    ([], Some (Error ("Bad response: " ++ of_N (status res) ++ " " ++ t)%string))
  else
    match body_json res with
    | None => ([], Some (Error "Invalid JSON response"))
    | Some j =>
        if ToBoolean j then resolve j
        else ([], Some (Error "Invalid JSON response"))
    end.

(** One exchange: the request made, if any, the bot messages rendered and the
    error the exchange ends with, if any. *)
Definition exchange (ep : string) (net : fetch_outcome) : bool * (list string * option exn) :=
  if falsy ep then (false, ([], Some (Error "ChatWidget: endpoint option required")))
  else
    match net with
    | Rejected e => (true, ([], Some e))
    | Responded res => (true, classify res)
    end.

Definition request_of (w : ChatWidget) (message : string) : Request :=
  {| url := endpoint (opts w); method := "POST";
     content_type := "application/json";
     credentials := "omit";
     payload := make_payload message (sessionId w) (location_href w) |}.

(** The widget once the entry is in the list and scrolled to, before the
    observer is told. *)
Definition rendered (text who : string) (w : ChatWidget) : ChatWidget :=
  let ms := messages w ++ [Msg (class_of who) text] in
  log ScrollBottom (log (DomChildren ms) (set_messages ms w)).

(** The widget after [_appendMsg text who]. *)
Definition appended (text who : string) (w : ChatWidget) : ChatWidget :=
  let w1 := rendered text who w in
  match onMessageReceived (opts w) with
  | Some f =>
      let arg := hook_arg who text (sessionId w) in
      log (ObserverCall arg (f (trace w1) arg)) w1
  | None => w1
  end.

(** The widget after [_showTyping now]. *)
Definition shown (now : N) (w : ChatWidget) : ChatWidget :=
  let ms := messages w ++ [Typing (of_N now)] in
  log ScrollBottom (log (DomChildren ms) (set_messages ms w)).

Definition typing_count (ms : list node) : nat := length (filter is_typing ms).

(** The entries that are messages. *)
Definition strip (ms : list node) : list node :=
  filter (fun n => negb (is_typing n)) ms.

(** The message list after each of [k] removals of a typing entry. *)
Fixpoint removals (k : nat) (ms : list node) : list (list node) :=
  match k with
  | O => []
  | S k' => remove_first_typing ms :: removals k' (remove_first_typing ms)
  end.

Fixpoint remove_typings (k : nat) (ms : list node) : list node :=
  match k with
  | O => ms
  | S k' => remove_typings k' (remove_first_typing ms)
  end.

Definition log_all (evs : list event) (w : ChatWidget) : ChatWidget :=
  {| opts := opts w; sessionId := sessionId w; isOpen := isOpen w;
     messages := messages w; textarea := textarea w;
     location_href := location_href w; trace := trace w ++ evs |}.

(** The widget after [_hideTyping]. *)
Definition hidden (w : ChatWidget) : ChatWidget :=
  let k := typing_count (messages w) in
  log_all (map DomChildren (removals k (messages w)))
          (set_messages (remove_typings k (messages w)) w).

(** The widget after the bot messages [texts] were appended in turn. *)
Definition replied (texts : list string) (w : ChatWidget) : ChatWidget :=
  fold_left (fun w' s => appended s "bot" w') texts w.

(** The widget after [sendMessageToEndpoint] inside its [try ... catch]. *)
Definition settled (net : fetch_outcome) (message : string) (w : ChatWidget) : ChatWidget :=
  let '(requested, (texts, err)) := exchange (endpoint (opts w)) net in
  let w1 := if requested : bool then log (Fetch (request_of w message)) w else w in
  let w2 := replied texts w1 in
  match err with
  | Some e => appended apology "bot" (log (ConsoleError "ChatWidget send error" e) w2)
  | None => w2
  end.

(** The bot messages of one send: the replies, then the apology if the
    exchange ended with an error. *)
Definition bot_texts (ep : string) (net : fetch_outcome) : list string :=
  let '(_, (texts, err)) := exchange ep net in
  match err with
  | Some _ => texts ++ [apology]
  | None => texts
  end.

(** The widget after a send that went through. *)
Definition sent (now : N) (net : fetch_outcome) (w : ChatWidget) : ChatWidget :=
  let text := trim (textarea w) in
  let w1 := appended text "user" w in
  let w2 := log (InputValue "") (set_textarea "" w1) in
  hidden (settled net text (shown now w2)).

(** ** Sequences of sends *)

(** One use of the widget: the user leaves [input] in the text area and
    submits at time [at_time]; the environment answers with [answer]. *)
Record send : Type := {
  input : string;
  at_time : N;
  answer : fetch_outcome
}.

(** The send is issued and runs to completion before anything else happens. *)
Definition submit (w : ChatWidget) (s : send) : ChatWidget :=
  snd (_onSend (at_time s) (answer s) (set_textarea (input s) w)).

Definition run (sends : list send) (w : ChatWidget) : ChatWidget :=
  fold_left submit sends w.

(** The transcript entries of one send. *)
Definition entries (ep : string) (s : send) : list node :=
  let text := trim (input s) in
  if falsy text then []
  else Msg user text :: map (Msg bot) (bot_texts ep (answer s)).

(** *** Reading a trace *)

Definition snapshot_of (e : event) : list (list node) :=
  match e with DomChildren ms => [ms] | _ => [] end.

Definition call_of (e : event) : list value :=
  match e with ObserverCall arg _ => [arg] | _ => [] end.

Definition request_in (e : event) : list Request :=
  match e with Fetch r => [r] | _ => [] end.

(** The message lists the page went through. *)
Definition snapshots (evs : list event) : list (list node) := flat_map snapshot_of evs.

(** The arguments the observer was called with. *)
Definition observer_calls (evs : list event) : list value := flat_map call_of evs.

(** The requests sent. *)
Definition fetches (evs : list event) : list Request := flat_map request_in evs.

(** ** The Reply Resolution Policy *)

(** The policy as the specification words it, on a parsed body: a string
    [reply]; else an array [replies], each element coerced; else a field
    [text] of any type, coerced; else the whole body as JSON text.  [None]
    where a coercion is not defined. *)
Definition stated_policy (j : value) : option (list string) :=
  match get j "reply" with
  | Some (VStr reply) => Some [reply]
  | _ =>
      match get j "replies" with
      | Some (VArr replies) => sequence (map ToString replies)
      | _ =>
          match get j "text" with
          | Some v => option_map (fun s => [s]) (ToString v)
          | None => Some [JSON_stringify j]
          end
      end
  end.

(** The same policy with the third rule asking for a truthy [text]. *)
Definition policy (j : value) : option (list string) :=
  match get j "reply" with
  | Some (VStr reply) => Some [reply]
  | _ =>
      match get j "replies" with
      | Some (VArr replies) => sequence (map ToString replies)
      | _ =>
          match get j "text" with
          | Some v =>
              if ToBoolean v then option_map (fun s => [s]) (ToString v)
              else Some [JSON_stringify j]
          | None => Some [JSON_stringify j]
          end
      end
  end.

(** The error outcomes of a send: no endpoint configured, a network failure,
    a status outside 200 to 299, a body that does not parse as JSON.  The
    code cannot tell the last from a body that parses to a falsy value
    ([null], [false], [0] or the empty string) and treats both alike. *)
Definition error_outcome (ep : string) (net : fetch_outcome) : bool :=
  falsy ep
  || match net with
     | Rejected _ => true
     | Responded res =>
         negb (ok res)
         || match body_json res with
            | None => true
            | Some j => negb (ToBoolean j)
            end
     end.

(** *** The observer *)

(** The string a message entry was appended under. *)
Definition name_of (a : author) : string :=
  match a with
  | user => "user"
  | bot => "bot"
  end.

(** What an observer is told about an entry: one object for a message,
    nothing for a typing entry. *)
Definition notice (sid : string) (n : node) : list value :=
  match n with
  | Msg a text => [hook_arg (name_of a) text sid]
  | Typing _ => []
  end.

(** What the observer of [w], if there is one, is told about [ns]. *)
Definition told (w : ChatWidget) (ns : list node) : list value :=
  match onMessageReceived (opts w) with
  | Some _ => flat_map (notice (sessionId w)) ns
  | None => []
  end.

(** *** The typing indicator *)

Definition at_most_one (ms : list node) : Prop := typing_count ms <= 1.

(** No message list the page went through held two typing entries. *)
Definition calm (w : ChatWidget) : Prop :=
  Forall at_most_one (snapshots (trace w)).

(** No send is pending: no typing entry is shown, and none was ever doubled. *)
Definition at_rest (w : ChatWidget) : Prop :=
  typing_count (messages w) = 0 /\ calm w.

(** *** Relating two states of a widget *)

(** [opts], [sessionId] and [location.href] are the same in both. *)
Definition same_session (w w' : ChatWidget) : Prop :=
  opts w' = opts w /\ sessionId w' = sessionId w /\ location_href w' = location_href w.

(** The later widget has seen everything the earlier one has, and more. *)
Definition extends (w w' : ChatWidget) : Prop :=
  exists evs, trace w' = trace w ++ evs.

(** ** The rest of the widget *)

(** *** A send in two halves

    [_onSend] suspends at the [await] of the request.  What runs before is
    the submission; what runs once the environment has answered is the
    resumption.  Other handlers of the page, a second submission among them,
    can run in between. *)

(** The body of [sendMessageToEndpoint] up to the call of [fetch]. *)
Definition issue_request (message : string) : M unit :=
  ep <- gets (fun w => endpoint (opts w)) ;;
  if falsy ep then throw (Error "ChatWidget: endpoint option required") else
  sid <- gets sessionId ;;
  href <- gets location_href ;;
  emit (Fetch {| url := ep; method := "POST";
                 content_type := "application/json";
                 credentials := "omit";
                 payload := make_payload message sid href |}).

(** The body of [sendMessageToEndpoint] from the answer on. *)
Definition handle_answer (net : fetch_outcome) : M unit :=
  res <- match net with
         | Rejected e => throw e
         | Responded res => ret res
         end ;;
  if negb (ok res) then
    let t := match body_text res with Some s => s | None => "null" end in
    throw (Error ("Bad response: " ++ of_N (status res) ++ " " ++ t)%string)
  else
  let j := match body_json res with Some v => v | None => VNull end in
  if negb (ToBoolean j) then throw (Error "Invalid JSON response") else
  match get j "reply" with
  | Some (VStr reply) => _appendMsg reply "bot"
  | _ =>
      match get j "replies" with
      | Some (VArr replies) =>
          forEach (fun r => s <- String_ (Some r) ;; _appendMsg s "bot") replies
      | _ =>
          if truthy (get j "text")
          then s <- String_ (get j "text") ;; _appendMsg s "bot"
          else _appendMsg (JSON_stringify j) "bot"
      end
  end.

(** What a suspended [_onSend] holds on to: the handle of its typing entry
    and, when [sendMessageToEndpoint] threw before any request was made, the
    error its promise is rejected with. *)
Record in_flight : Type := {
  typingId : string;
  rejected_early : option exn
}.

(** [_onSend] up to its [await]; [None] when there was nothing to send. *)
Definition submission (now : N) : M (option in_flight) :=
  v <- gets textarea ;;
  let text := trim v in
  if falsy text then ret None else
  _appendMsg text "user" ;;
  set_value "" ;;
  id <- _showTyping now ;;
  early <- try_catch (issue_request text ;; ret None) (fun e => ret (Some e)) ;;
  ret (Some {| typingId := id; rejected_early := early |}).

(** [_onSend] from its [await] on. *)
Definition resumption (net : fetch_outcome) (p : in_flight) : M unit :=
  try_finally
    (try_catch
       match rejected_early p with
       | Some e => throw e
       | None => handle_answer net
       end
       (fun err =>
          console_error "ChatWidget send error" err ;;
          _appendMsg apology "bot"))
    (_hideTyping (typingId p)).

(** The widget after a submission that went through. *)
Definition submitted (now : N) (w : ChatWidget) : ChatWidget :=
  let text := trim (textarea w) in
  let w1 := appended text "user" w in
  let w3 := shown now (log (InputValue "") (set_textarea "" w1)) in
  if falsy (endpoint (opts w)) then w3 else log (Fetch (request_of w3 text)) w3.

(** What a suspended send of [w] holds on to. *)
Definition pending (now : N) (w : ChatWidget) : in_flight :=
  {| typingId := of_N now;
     rejected_early :=
       if falsy (endpoint (opts w))
       then Some (Error "ChatWidget: endpoint option required")
       else None |}.

(** The bot messages an answer resolves to, and the error it ends with. *)
Definition answered (net : fetch_outcome) : list string * option exn :=
  match net with
  | Rejected e => ([], Some e)
  | Responded res => classify res
  end.

(** The same for a suspended send. *)
Definition outcome (net : fetch_outcome) (p : in_flight) : list string * option exn :=
  match rejected_early p with
  | Some e => ([], Some e)
  | None => answered net
  end.

(** The widget after the resumption of a send. *)
Definition resumed (net : fetch_outcome) (p : in_flight) (w : ChatWidget) : ChatWidget :=
  let '(texts, err) := outcome net p in
  let w2 := replied texts w in
  hidden match err with
         | Some e => appended apology "bot" (log (ConsoleError "ChatWidget send error" e) w2)
         | None => w2
         end.

(** The bot messages of a resumption. *)
Definition resumption_texts (net : fetch_outcome) (p : in_flight) : list string :=
  let '(texts, err) := outcome net p in
  match err with
  | Some _ => texts ++ [apology]
  | None => texts
  end.

(** Two sends that overlap: the second is submitted while the first is
    pending, and the answers come back in either order. *)
Record overlap : Type := {
  first : send;
  second : send;
  second_answered_first : bool
}.

Definition resume (net : fetch_outcome) (p : option in_flight) : M unit :=
  match p with
  | Some p' => resumption net p'
  | None => ret tt
  end.

(** Both sends are submitted, the answer to neither has come. *)
Definition both_submitted (o : overlap) : M (option in_flight * option in_flight) :=
  modify (set_textarea (input (first o))) ;;
  p1 <- submission (at_time (first o)) ;;
  modify (set_textarea (input (second o))) ;;
  p2 <- submission (at_time (second o)) ;;
  ret (p1, p2).

(** The send whose answer comes first resumes. *)
Definition one_answered (o : overlap) (ps : option in_flight * option in_flight) : M unit :=
  if second_answered_first o
  then resume (answer (second o)) (snd ps)
  else resume (answer (first o)) (fst ps).

(** Then the other. *)
Definition other_answered (o : overlap) (ps : option in_flight * option in_flight) : M unit :=
  if second_answered_first o
  then resume (answer (first o)) (fst ps)
  else resume (answer (second o)) (snd ps).

Definition overlapping (o : overlap) : M unit :=
  ps <- both_submitted o ;;
  one_answered o ps ;;
  other_answered o ps.

(** The bot messages of the two sends in the order their answers came. *)
Definition overlap_replies (ep : string) (o : overlap) : list string :=
  if second_answered_first o
  then bot_texts ep (answer (second o)) ++ bot_texts ep (answer (first o))
  else bot_texts ep (answer (first o)) ++ bot_texts ep (answer (second o)).

(** *** The keyboard *)

Record KeyboardEvent : Type := {
  key : string;
  ctrlKey : bool;
  metaKey : bool;
  shiftKey : bool
}.

(** The [keydown] listener of the text area.  The result tells whether
    [e.preventDefault()] was called. *)
Definition onKeydown (e : KeyboardEvent) (now : N) (net : fetch_outcome) : M bool :=
  if (ctrlKey e || metaKey e) && String.eqb (key e) "Enter"
  then _onSend now net ;; ret false
  else if String.eqb (key e) "Enter" && negb (shiftKey e)
  then _onSend now net ;; ret true
  else ret false.

(** Enter with a modifier that sends, or Enter without Shift. *)
Definition submits (e : KeyboardEvent) : bool :=
  String.eqb (key e) "Enter" && (ctrlKey e || metaKey e || negb (shiftKey e)).

(** *** Building elements *)

(** A value in the attribute object handed to [makeEl]. *)
Inductive attr_value : Type :=
| AText (s : string)
| ANumber (n : number)
| AStyle (declarations : list (string * string)).

(** An element as [makeEl] leaves it: what was assigned to [className],
    merged into [style], set with [setAttribute], assigned as a property of
    the element object, and appended, each in the order it happened. *)
Record element (child : Type) : Type := {
  tagName : string;
  className : string;
  style : list (string * string);
  attributes : list (string * string);
  properties : list (string * attr_value);
  childNodes : list child
}.

Arguments tagName {child} e.
Arguments className {child} e.
Arguments style {child} e.
Arguments attributes {child} e.
Arguments properties {child} e.
Arguments childNodes {child} e.

Inductive dom : Type :=
| TextNode (data : string)
| ElementNode (e : element dom).

(** One of the [children] arguments of [makeEl]: a string, a node, or a
    falsy value that is not a string. *)
Inductive child_arg : Type :=
| CText (s : string)
| CNode (n : dom)
| CNothing.

(** [String(v)] on an attribute value. *)
Definition attr_string (v : attr_value) : string :=
  match v with
  | AText s => s
  | ANumber n => Number_toString n
  | AStyle _ => "[object Object]"
  end.

Fixpoint lookup {V : Type} (k : string) (l : list (string * V)) : option V :=
  match l with
  | [] => None
  | (k', v) :: rest => if String.eqb k' k then Some v else lookup k rest
  end.

(** [o[k] = v]: the value of an existing key is replaced in place, a new key
    comes last. *)
Fixpoint assign {V : Type} (k : string) (v : V) (l : list (string * V)) : list (string * V) :=
  match l with
  | [] => [(k, v)]
  | (k', v') :: rest =>
      if String.eqb k' k then (k, v) :: rest else (k', v') :: assign k v rest
  end.

(** [Object.assign(target, source)] *)
Definition assign_all {V : Type} (source target : list (string * V)) : list (string * V) :=
  fold_left (fun t kv => assign (fst kv) (snd kv) t) source target.

(** [document.createElement(tag)] *)
Definition createElement (tag : string) : element dom :=
  {| tagName := tag; className := ""; style := []; attributes := [];
     properties := []; childNodes := [] |}.

(** [Object.assign(el.style, v)].  An object of declarations is merged in; a
    number or an empty string has no properties of its own to copy.  A
    non-empty string would be spread over the declaration one character at
    a time: the model stops there, with [None]. *)
Definition merge_style (v : attr_value) (st : list (string * string))
    : option (list (string * string)) :=
  match v with
  | AStyle decls => Some (assign_all decls st)
  | ANumber _ => Some st
  | AText s => if falsy s then Some st else None
  end.

(** One round of the loop over the keys of [attrs]. *)
Definition set_attr (el : element dom) (kv : string * attr_value) : option (element dom) :=
  let (k, v) := kv in
  if String.eqb k "class" then
    Some {| tagName := tagName el; className := attr_string v; style := style el;
            attributes := attributes el; properties := properties el;
            childNodes := childNodes el |}
  else if String.eqb k "style" then
    match merge_style v (style el) with
    | Some st =>
        Some {| tagName := tagName el; className := className el; style := st;
                attributes := attributes el; properties := properties el;
                childNodes := childNodes el |}
    | None => None
    end
  else if prefix "data-" k then
    Some {| tagName := tagName el; className := className el; style := style el;
            attributes := assign k (attr_string v) (attributes el);
            properties := properties el; childNodes := childNodes el |}
  else
    Some {| tagName := tagName el; className := className el; style := style el;
            attributes := attributes el;
            properties := assign k v (properties el); childNodes := childNodes el |}.

(** The loop over the keys of [attrs]. *)
Fixpoint set_attrs (attrs : list (string * attr_value)) (el : element dom)
    : option (element dom) :=
  match attrs with
  | [] => Some el
  | kv :: rest =>
      match set_attr el kv with
      | Some el' => set_attrs rest el'
      | None => None
      end
  end.

(** The node a child argument contributes, if any. *)
Definition node_of (c : child_arg) : list dom :=
  match c with
  | CText s => [TextNode s]
  | CNode n => [n]
  | CNothing => []
  end.

(** One round of the loop over [children]. *)
Definition add_child (el : element dom) (c : child_arg) : element dom :=
  {| tagName := tagName el; className := className el; style := style el;
     attributes := attributes el; properties := properties el;
     childNodes := childNodes el ++ node_of c |}.

(** [makeEl(tag, attrs, ...children)]; [attrs] lists the keys of the object
    in the order a [for ... in] loop visits them. *)
Definition makeEl (tag : string) (attrs : list (string * attr_value))
    (children : list child_arg) : option (element dom) :=
  match set_attrs attrs (createElement tag) with
  | Some el => Some (fold_left add_child children el)
  | None => None
  end.


(** The panel [_build] makes. *)
Definition panel_element : option (element dom) :=
  makeEl "div"
    [("class", AText "chat-widget-panel"); ("role", AText "dialog");
     ("aria-hidden", AText "true")]
    [].

(** The attributes [setAttribute] would find on the element. *)
Definition attributes_of (el : option (element dom)) : list (string * string) :=
  match el with
  | Some e => attributes e
  | None => []
  end.

(** The inline style of the element. *)
Definition style_of (el : option (element dom)) : list (string * string) :=
  match el with
  | Some e => style e
  | None => []
  end.

(** *** The panel *)

(** The widget with the parts of the page that [open] and [close] act on:
    the inline [display] of the panel and its [aria-hidden] attribute
    ([None] while not set), whether the text area was given the focus, and
    the delays of the timers set and not yet run. *)
Record Page : Type := {
  this : ChatWidget;
  panel_display : option string;
  panel_aria_hidden : option string;
  textarea_focused : bool;
  timers : list N
}.

Definition set_isOpen (b : bool) (w : ChatWidget) : ChatWidget :=
  {| opts := opts w; sessionId := sessionId w; isOpen := b;
     messages := messages w; textarea := textarea w;
     location_href := location_href w; trace := trace w |}.

(** The page right after [new ChatWidget(o)]: no inline style on the panel
    yet, and the attributes [makeEl] gave it. *)
Definition new_Page (o : Options) (random href : string) : Page :=
  {| this := new_ChatWidget o random href;
     panel_display := lookup "display" (style_of panel_element);
     panel_aria_hidden := lookup "aria-hidden" (attributes_of panel_element);
     textarea_focused := false;
     timers := [] |}.

Definition open (p : Page) : Page :=
  {| this := set_isOpen true (this p);
     panel_display := Some "flex";
     panel_aria_hidden := Some "false";
     textarea_focused := true;
     timers := timers p ++ [50%N] |}.

Definition close (p : Page) : Page :=
  {| this := set_isOpen false (this p);
     panel_display := Some "none";
     panel_aria_hidden := Some "true";
     textarea_focused := textarea_focused p;
     timers := timers p |}.

Definition toggle (p : Page) : Page :=
  if isOpen (this p) then close p else open p.

(** The oldest timer runs: [() => this._scrollBottom()]. *)
Definition timer_fires (p : Page) : Page :=
  match timers p with
  | [] => p
  | _ :: rest =>
      {| this := snd (_scrollBottom (this p));
         panel_display := panel_display p;
         panel_aria_hidden := panel_aria_hidden p;
         textarea_focused := textarea_focused p;
         timers := rest |}
  end.

(** What can happen to a page: a click on the floating button, on the close
    button, a call of [open], a timer, or a send run to completion. *)
Inductive action : Type :=
| Toggle
| Close
| Open
| TimerFires
| Send (s : send).

Definition on_widget (f : ChatWidget -> ChatWidget) (p : Page) : Page :=
  {| this := f (this p);
     panel_display := panel_display p;
     panel_aria_hidden := panel_aria_hidden p;
     textarea_focused := textarea_focused p;
     timers := timers p |}.

Definition act (p : Page) (a : action) : Page :=
  match a with
  | Toggle => toggle p
  | Close => close p
  | Open => open p
  | TimerFires => timer_fires p
  | Send s => on_widget (fun w => submit w s) p
  end.

Definition acts (l : list action) (p : Page) : Page := fold_left act l p.

(** The panel shows what [isOpen] says. *)
Definition coherent (p : Page) : Prop :=
  if isOpen (this p)
  then panel_display p = Some "flex" /\ panel_aria_hidden p = Some "false"
  else panel_display p <> Some "flex" /\ panel_aria_hidden p <> Some "false".

(** The sends among the actions. *)
Definition sends_of (l : list action) : list send :=
  flat_map (fun a => match a with Send s => [s] | _ => [] end) l.

(** The answers after which a send shows no bot message at all: a success
    whose truthy body has no string [reply] and an empty array [replies]. *)
Definition answers_nothing (ep : string) (net : fetch_outcome) : bool :=
  negb (falsy ep)
  && match net with
     | Rejected _ => false
     | Responded res =>
         ok res
         && match body_json res with
            | Some j =>
                ToBoolean j
                && match get j "reply" with
                   | Some (VStr _) => false
                   | _ =>
                       match get j "replies" with
                       | Some (VArr []) => true
                       | _ => false
                       end
                   end
            | None => false
            end
     end.

(** The request a widget makes for [message]. *)
Definition request_for (w : ChatWidget) (message : string) : Request :=
  {| url := endpoint (opts w);
     method := "POST";
     content_type := "application/json";
     credentials := "omit";
     payload :=
       VObj [("message", VStr message);
             ("sessionId", VStr (sessionId w));
             ("metadata", VObj [("origin", VStr (location_href w))])] |}.


(** *** More readings of a trace *)

Definition error_in (e : event) : list (string * exn) :=
  match e with ConsoleError label err => [(label, err)] | _ => [] end.

(** What was reported on the console: each label with its error. *)
Definition diagnostics (evs : list event) : list (string * exn) := flat_map error_in evs.


(** The texts of the user entries. *)
Definition user_texts (ms : list node) : list string :=
  flat_map (fun n => match n with Msg user t => [t] | _ => [] end) ms.

(** The sends that have something to send. *)
Definition effective (sends : list send) : list send :=
  filter (fun s => negb (whitespace_only (input s))) sends.


(** Whether the panel is open after an action, given whether it was. *)
Definition open_after (b : bool) (a : action) : bool :=
  match a with
  | Toggle => negb b
  | Close => false
  | Open => true
  | TimerFires => b
  | Send _ => b
  end.

(** Two widgets with the same conversation: options, session, page,
    transcript, text area, requests made and errors reported. *)
Definition alike (w w' : ChatWidget) : Prop :=
  opts w = opts w'
  /\ sessionId w = sessionId w'
  /\ location_href w = location_href w'
  /\ messages w = messages w'
  /\ textarea w = textarea w'
  /\ fetches (trace w) = fetches (trace w')
  /\ diagnostics (trace w) = diagnostics (trace w').


(** ** A widget to try things on *)

Module Demo.

(** An observer that always throws. *)
Definition grumpy : observer := fun _ _ => Some (Error "observer failed").

Definition options : Options :=
  {| endpoint := "https://example.test/webhook/chat";
     opts_sessionId := Some "host-session";
     onMessageReceived := Some grumpy |}.

(** [new ChatWidget(options)] on a page. *)
Definition widget : ChatWidget :=
  new_ChatWidget options "k3j2h1g" "https://example.test/page".

(** The same widget with [input] in its text area. *)
Definition typed (input : string) : ChatWidget := set_textarea input widget.

(** A 200 response whose body parses to [j]. *)
Definition answers (j : value) : fetch_outcome :=
  Responded {| status := 200; body_text := None; body_json := Some j |}.

(** A 500 response. *)
Definition fails : fetch_outcome :=
  Responded {| status := 500; body_text := Some "oops"; body_json := None |}.

(** Four submissions in a row, the second with nothing to send. *)
Definition three_sends : list send :=
  [ {| input := " one "; at_time := 1;
       answer := answers (VObj [("replies", VArr [VStr "a"; VStr "b"])]) |};
    {| input := "   "; at_time := 2; answer := fails |};
    {| input := "two"; at_time := 3; answer := fails |};
    {| input := "three"; at_time := 4; answer := answers (VObj [("reply", VStr "c")]) |} ].

End Demo.

(** ** More to try things on *)

Module Scenario.

(** A second send submitted while the first is pending; its answer comes
    back first. *)
Definition crossing : overlap :=
  {| first := {| input := "one"; at_time := 1;
                 answer := Demo.answers (VObj [("reply", VStr "a")]) |};
     second := {| input := "two"; at_time := 2;
                  answer := Demo.answers (VObj [("reply", VStr "b")]) |};
     second_answered_first := true |}.

(** A 200 response whose second reply cannot be converted. *)
Definition half_good : Response :=
  {| status := 200; body_text := None;
     body_json :=
       Some (VObj [("replies",
                    VArr [VStr "a"; VObj [("toString", VNum "1")]; VStr "b"])]) |}.


End Scenario.


(** ** The methods compute what was just described *)

Lemma bind_normal {A B} (m : M A) (k : A -> M B) w a w' :
  m w = (Normal a, w') -> bind m k w = k a w'.
Proof. unfold bind. intros ->. reflexivity. Qed.

Lemma bind_abrupt {A B} (m : M A) (k : A -> M B) w e w' :
  m w = (Abrupt e, w') -> bind m k w = (Abrupt e, w').
Proof. unfold bind. intros ->. reflexivity. Qed.

Lemma _appendMsg_run text who w :
  _appendMsg text who w = (Normal tt, appended text who w).
Proof.
  unfold _appendMsg, appended, bind, appendChild, _scrollBottom, emit, modify,
    gets, try_catch, call, ret.
  cbn. destruct (onMessageReceived (opts w)) as [f|]; [|reflexivity].
  cbn. destruct (f _ _); reflexivity.
Qed.

Lemma _showTyping_run now w :
  _showTyping now w = (Normal (of_N now), shown now w).
Proof. reflexivity. Qed.

Lemma log_all_nil w : log_all [] w = w.
Proof. destruct w. unfold log_all. cbn. rewrite app_nil_r. reflexivity. Qed.

Lemma remove_each_run (xs : list node) w :
  forEach (fun _ => remove_typing) xs w
  = (Normal tt,
     log_all (map DomChildren (removals (length xs) (messages w)))
             (set_messages (remove_typings (length xs) (messages w)) w)).
Proof.
  revert w. induction xs as [|x xs IH]; intros w.
  - cbn. rewrite log_all_nil. destruct w. reflexivity.
  - cbn [forEach]. unfold bind at 1. unfold remove_typing at 1.
    rewrite IH. cbn. unfold log_all, set_messages, log. cbn.
    rewrite <- app_assoc. reflexivity.
Qed.

Lemma _hideTyping_run dummy w :
  _hideTyping dummy w = (Normal tt, hidden w).
Proof.
  unfold _hideTyping, bind, gets. rewrite remove_each_run. reflexivity.
Qed.

Lemma coerce_each_run (rs : list value) w :
  forEach (fun r => s <- String_ (Some r) ;; _appendMsg s "bot") rs w
  = (match snd (coerce_all rs) with
     | Some e => Abrupt e
     | None => Normal tt
     end,
     replied (fst (coerce_all rs)) w).
Proof.
  revert w. induction rs as [|r rs IH]; intros w.
  - reflexivity.
  - cbn [forEach coerce_all]. unfold bind at 1. unfold bind at 1.
    unfold String_. destruct (ToString r) as [s|].
    + unfold ret. rewrite _appendMsg_run, IH.
      destruct (coerce_all rs) as [ss e]. reflexivity.
    + reflexivity.
Qed.

Lemma sendMessageToEndpoint_run net message w :
  sendMessageToEndpoint net message w
  = let '(requested, (texts, err)) := exchange (endpoint (opts w)) net in
    (match err with
     | Some e => Abrupt e
     | None => Normal tt
     end,
     replied texts (if requested : bool then log (Fetch (request_of w message)) w else w)).
Proof.
  unfold sendMessageToEndpoint, exchange.
  unfold bind at 1. unfold gets at 1.
  destruct (falsy (endpoint (opts w))); [reflexivity|].
  unfold bind at 1. unfold gets at 1.
  unfold bind at 1. unfold gets at 1.
  unfold bind at 1. unfold fetch.
  destruct net as [e|res]; [reflexivity|].
  fold (request_of w message). unfold classify.
  destruct (negb (ok res)); [reflexivity|].
  destruct (body_json res) as [j|]; [|reflexivity].
  destruct (ToBoolean j); [|reflexivity].
  cbn [negb]. unfold resolve.
  set (w1 := log (Fetch (request_of w message)) w).
  assert (Hrest :
    match get j "replies" with
    | Some (VArr replies) =>
        forEach (fun r => s <- String_ (Some r) ;; _appendMsg s "bot") replies
    | _ =>
        if truthy (get j "text")
        then s <- String_ (get j "text") ;; _appendMsg s "bot"
        else _appendMsg (JSON_stringify j) "bot"
    end w1
    = let '(texts, err) :=
        match get j "replies" with
        | Some (VArr replies) => coerce_all replies
        | _ =>
            match get j "text" with
            | Some v =>
                if ToBoolean v
                then match ToString v with
                     | Some s => ([s], None)
                     | None => ([], Some cannot_convert)
                     end
                else ([JSON_stringify j], None)
            | None => ([JSON_stringify j], None)
            end
        end in
      (match err with Some e => Abrupt e | None => Normal tt end, replied texts w1)).
  { assert (Htext :
      (if truthy (get j "text")
       then s <- String_ (get j "text") ;; _appendMsg s "bot"
       else _appendMsg (JSON_stringify j) "bot") w1
      = let '(texts, err) :=
          match get j "text" with
          | Some v =>
              if ToBoolean v
              then match ToString v with
                   | Some s => ([s], None)
                   | None => ([], Some cannot_convert)
                   end
              else ([JSON_stringify j], None)
          | None => ([JSON_stringify j], None)
          end in
        (match err with Some e => Abrupt e | None => Normal tt end, replied texts w1)).
    { destruct (get j "text") as [v|]; cbn [truthy].
      - destruct (ToBoolean v).
        + unfold bind, String_. destruct (ToString v) as [s|].
          * unfold ret. rewrite _appendMsg_run. reflexivity.
          * reflexivity.
        + rewrite _appendMsg_run. reflexivity.
      - rewrite _appendMsg_run. reflexivity. }
    destruct (get j "replies") as [[| | | |rs|]|]; try exact Htext.
    rewrite coerce_each_run. destruct (coerce_all rs). reflexivity. }
  destruct (get j "reply") as [[| | |s| |]|]; try exact Hrest.
  rewrite _appendMsg_run. reflexivity.
Qed.

Lemma _onSend_noop now net w :
  falsy (trim (textarea w)) = true -> _onSend now net w = (Normal tt, w).
Proof.
  intros Hempty. unfold _onSend, bind, gets. rewrite Hempty. reflexivity.
Qed.

Lemma _onSend_run now net w :
  falsy (trim (textarea w)) = false -> _onSend now net w = (Normal tt, sent now net w).
Proof.
  intros Hfull. unfold _onSend, sent.
  unfold bind at 1. unfold gets at 1. rewrite Hfull.
  unfold bind at 1. rewrite _appendMsg_run.
  unfold bind at 1. unfold set_value at 1.
  unfold bind at 1. rewrite _showTyping_run.
  unfold try_finally, try_catch. rewrite sendMessageToEndpoint_run.
  unfold settled.
  destruct (exchange _ net) as [requested [texts [e|]]].
  - unfold bind, console_error, emit, modify.
    rewrite _appendMsg_run, _hideTyping_run. reflexivity.
  - rewrite _hideTyping_run. reflexivity.
Qed.


(** ** What the steps leave alone *)

Lemma same_session_refl w : same_session w w.
Proof. repeat split. Qed.

Lemma same_session_trans w1 w2 w3 :
  same_session w1 w2 -> same_session w2 w3 -> same_session w1 w3.
Proof.
  unfold same_session. intros (Ho & Hs & Hl) (Ho' & Hs' & Hl').
  repeat split; congruence.
Qed.

Lemma appended_session text who w : same_session w (appended text who w).
Proof.
  unfold appended. destruct (onMessageReceived (opts w)); repeat split.
Qed.

Lemma shown_session now w : same_session w (shown now w).
Proof. repeat split. Qed.

Lemma hidden_session w : same_session w (hidden w).
Proof. repeat split. Qed.

Lemma replied_session texts w : same_session w (replied texts w).
Proof.
  revert w. induction texts as [|s texts IH]; intros w.
  - apply same_session_refl.
  - cbn. eapply same_session_trans; [apply appended_session | apply IH].
Qed.

Lemma settled_session net message w : same_session w (settled net message w).
Proof.
  unfold settled.
  destruct (exchange _ net) as [requested [texts err]].
  assert (H1 : same_session w
    (replied texts (if requested then log (Fetch (request_of w message)) w else w))).
  { eapply same_session_trans; [|apply replied_session].
    destruct requested; repeat split. }
  destruct err as [e|]; [|exact H1].
  eapply same_session_trans; [exact H1|].
  eapply same_session_trans; [|apply appended_session]. repeat split.
Qed.

Lemma sent_session now net w : same_session w (sent now net w).
Proof.
  unfold sent.
  eapply same_session_trans; [apply appended_session|].
  eapply same_session_trans; [|apply hidden_session].
  eapply same_session_trans; [|apply settled_session].
  repeat split.
Qed.

(** ** The message list after each step *)

Lemma appended_messages text who w :
  messages (appended text who w) = messages w ++ [Msg (class_of who) text].
Proof.
  unfold appended. destruct (onMessageReceived (opts w)); reflexivity.
Qed.

Lemma replied_messages texts w :
  messages (replied texts w) = messages w ++ map (Msg bot) texts.
Proof.
  revert w. induction texts as [|s texts IH]; intros w; cbn.
  - now rewrite app_nil_r.
  - unfold replied in IH. rewrite IH, appended_messages, <- app_assoc.
    reflexivity.
Qed.

Lemma settled_messages net message w :
  messages (settled net message w)
  = messages w ++ map (Msg bot) (bot_texts (endpoint (opts w)) net).
Proof.
  unfold settled, bot_texts.
  destruct (exchange _ net) as [requested [texts err]].
  assert (H1 : messages
    (replied texts (if requested then log (Fetch (request_of w message)) w else w))
    = messages w ++ map (Msg bot) texts).
  { rewrite replied_messages. destruct requested; reflexivity. }
  destruct err as [e|]; [|exact H1].
  rewrite appended_messages. cbn [log messages]. rewrite H1.
  rewrite map_app, <- app_assoc. reflexivity.
Qed.

Lemma remove_first_typing_msg a text ms :
  remove_first_typing (Msg a text :: ms) = Msg a text :: remove_first_typing ms.
Proof. reflexivity. Qed.

Lemma remove_typings_msg k a text ms :
  remove_typings k (Msg a text :: ms) = Msg a text :: remove_typings k ms.
Proof.
  revert ms. induction k as [|k IH]; intros ms; cbn; [reflexivity|apply IH].
Qed.

Lemma remove_typings_all ms :
  remove_typings (typing_count ms) ms = strip ms.
Proof.
  unfold typing_count, strip.
  induction ms as [|[a text|id] ms IH]; cbn.
  - reflexivity.
  - rewrite remove_typings_msg, IH. reflexivity.
  - exact IH.
Qed.

Lemma hidden_messages w : messages (hidden w) = strip (messages w).
Proof. unfold hidden. cbn. apply remove_typings_all. Qed.

Lemma strip_app ms ms' : strip (ms ++ ms') = strip ms ++ strip ms'.
Proof. apply filter_app. Qed.

Lemma strip_bots texts : strip (map (Msg bot) texts) = map (Msg bot) texts.
Proof.
  unfold strip. induction texts as [|s texts IH]; cbn; [|rewrite IH]; reflexivity.
Qed.

Lemma typing_count_strip ms : typing_count (strip ms) = 0.
Proof.
  unfold typing_count, strip.
  induction ms as [|[a text|id] ms IH]; cbn; [reflexivity|exact IH|exact IH].
Qed.

Lemma strip_without_typing ms : typing_count ms = 0 -> strip ms = ms.
Proof.
  unfold typing_count, strip.
  induction ms as [|[a text|id] ms IH]; cbn; intros Hc.
  - reflexivity.
  - now rewrite IH.
  - discriminate.
Qed.

Lemma typing_count_app ms ms' :
  typing_count (ms ++ ms') = typing_count ms + typing_count ms'.
Proof. unfold typing_count. now rewrite filter_app, length_app. Qed.

Lemma typing_count_bots texts : typing_count (map (Msg bot) texts) = 0.
Proof.
  unfold typing_count. induction texts as [|s texts IH]; cbn; [reflexivity|exact IH].
Qed.

Lemma sent_messages now net w :
  messages (sent now net w)
  = strip (messages w)
    ++ Msg user (trim (textarea w))
    :: map (Msg bot) (bot_texts (endpoint (opts w)) net).
Proof.
  unfold sent. rewrite hidden_messages, settled_messages.
  cbn [shown log set_messages set_textarea messages opts].
  destruct (appended_session (trim (textarea w)) "user" w) as (-> & _ & _).
  rewrite appended_messages. cbn [class_of String.eqb Ascii.eqb Bool.eqb].
  rewrite !strip_app, strip_bots. cbn. rewrite <- !app_assoc. reflexivity.
Qed.


(** ** The trace after each step *)

Lemma extends_refl w : extends w w.
Proof. exists []. now rewrite app_nil_r. Qed.

Lemma extends_trans w1 w2 w3 : extends w1 w2 -> extends w2 w3 -> extends w1 w3.
Proof.
  intros [e1 H1] [e2 H2]. exists (e1 ++ e2). now rewrite H2, H1, app_assoc.
Qed.

Lemma appended_trace text who w :
  trace (appended text who w)
  = trace w
    ++ DomChildren (messages w ++ [Msg (class_of who) text])
    :: ScrollBottom
    :: match onMessageReceived (opts w) with
       | Some f =>
           [ObserverCall (hook_arg who text (sessionId w))
              (f (trace (rendered text who w)) (hook_arg who text (sessionId w)))]
       | None => []
       end.
Proof.
  unfold appended, rendered.
  destruct (onMessageReceived (opts w)); cbn; rewrite <- !app_assoc; reflexivity.
Qed.

Lemma shown_trace now w :
  trace (shown now w)
  = trace w ++ [DomChildren (messages w ++ [Typing (of_N now)]); ScrollBottom].
Proof. cbn. now rewrite <- app_assoc. Qed.

Lemma hidden_trace w :
  trace (hidden w)
  = trace w ++ map DomChildren (removals (typing_count (messages w)) (messages w)).
Proof. reflexivity. Qed.

Lemma appended_extends text who w : extends w (appended text who w).
Proof. eexists. apply appended_trace. Qed.

Lemma log_extends e w : extends w (log e w).
Proof. now exists [e]. Qed.

Lemma replied_extends texts w : extends w (replied texts w).
Proof.
  revert w. induction texts as [|s texts IH]; intros w.
  - apply extends_refl.
  - cbn. eapply extends_trans; [apply appended_extends | apply IH].
Qed.

Lemma settled_extends net message w : extends w (settled net message w).
Proof.
  unfold settled.
  destruct (exchange _ net) as [requested [texts err]].
  assert (H1 : extends w
    (replied texts (if requested then log (Fetch (request_of w message)) w else w))).
  { eapply extends_trans; [|apply replied_extends].
    destruct requested; [apply log_extends | apply extends_refl]. }
  destruct err as [e|]; [|exact H1].
  eapply extends_trans; [exact H1|].
  eapply extends_trans; [apply log_extends | apply appended_extends].
Qed.

(** *** One reading of the trace at a time *)

Section Reading.

Variable X : Type.
Variable read : event -> list X.

Lemma read_log e w :
  flat_map read (trace (log e w)) = flat_map read (trace w) ++ read e.
Proof. cbn. rewrite flat_map_app. cbn. now rewrite app_nil_r. Qed.

Lemma read_appended text who w :
  flat_map read (trace (appended text who w))
  = flat_map read (trace w)
    ++ read (DomChildren (messages w ++ [Msg (class_of who) text]))
    ++ read ScrollBottom
    ++ match onMessageReceived (opts w) with
       | Some f =>
           read (ObserverCall (hook_arg who text (sessionId w))
                   (f (trace (rendered text who w)) (hook_arg who text (sessionId w))))
       | None => []
       end.
Proof.
  rewrite appended_trace, flat_map_app. cbn.
  destruct (onMessageReceived (opts w)); cbn; now rewrite ?app_nil_r.
Qed.

Lemma read_shown now w :
  flat_map read (trace (shown now w))
  = flat_map read (trace w)
    ++ read (DomChildren (messages w ++ [Typing (of_N now)]))
    ++ read ScrollBottom.
Proof. rewrite shown_trace, flat_map_app. cbn. now rewrite app_nil_r. Qed.

Lemma read_hidden w :
  flat_map read (trace (hidden w))
  = flat_map read (trace w)
    ++ flat_map read (map DomChildren (removals (typing_count (messages w)) (messages w))).
Proof. now rewrite hidden_trace, flat_map_app. Qed.

End Reading.


(** ** Typing entries along the trace *)

Lemma calm_log e w :
  Forall at_most_one (snapshot_of e) -> calm w -> calm (log e w).
Proof.
  unfold calm, snapshots. intros He Hw. rewrite read_log.
  apply Forall_app. split; assumption.
Qed.

Lemma appended_count text who w :
  typing_count (messages (appended text who w)) = typing_count (messages w).
Proof. rewrite appended_messages, typing_count_app. cbn. lia. Qed.

Lemma calm_appended text who w :
  at_most_one (messages w) -> calm w -> calm (appended text who w).
Proof.
  unfold calm, snapshots. intros Hc Hw. rewrite read_appended.
  apply Forall_app. split; [assumption|].
  cbn. constructor.
  - unfold at_most_one in *. rewrite typing_count_app. cbn. lia.
  - destruct (onMessageReceived (opts w)); constructor.
Qed.

Lemma calm_replied texts w :
  at_most_one (messages w) -> calm w ->
  calm (replied texts w)
  /\ typing_count (messages (replied texts w)) = typing_count (messages w).
Proof.
  revert w. induction texts as [|s texts IH]; intros w Hc Hw.
  - split; [assumption|reflexivity].
  - cbn. destruct (IH (appended s "bot" w)) as [IH1 IH2].
    + unfold at_most_one. rewrite appended_count. exact Hc.
    + apply calm_appended; assumption.
    + split; [exact IH1|]. unfold replied in IH2. rewrite IH2.
      apply appended_count.
Qed.

Lemma calm_settled net message w :
  at_most_one (messages w) -> calm w ->
  calm (settled net message w)
  /\ typing_count (messages (settled net message w)) = typing_count (messages w).
Proof.
  intros Hc Hw. unfold settled.
  destruct (exchange _ net) as [requested [texts err]].
  set (w1 := if requested then log (Fetch (request_of w message)) w else w).
  assert (Hw1 : calm w1 /\ messages w1 = messages w).
  { subst w1. destruct requested; split; try reflexivity; try assumption.
    apply calm_log; [constructor|assumption]. }
  destruct Hw1 as [Hw1 Hm1].
  destruct (@calm_replied texts w1) as [H2 H3].
  { unfold at_most_one. now rewrite Hm1. }
  { assumption. }
  rewrite Hm1 in H3.
  destruct err as [e|]; [|split; assumption].
  split.
  - apply calm_appended.
    + unfold at_most_one. cbn [log messages]. now rewrite H3.
    + apply calm_log; [constructor|assumption].
  - rewrite appended_count. exact H3.
Qed.

Lemma calm_shown now w :
  typing_count (messages w) = 0 -> calm w ->
  calm (shown now w) /\ typing_count (messages (shown now w)) = 1.
Proof.
  intros Hc Hw. split.
  - unfold calm, snapshots. rewrite read_shown.
    apply Forall_app. split; [assumption|].
    cbn. constructor; [|constructor].
    unfold at_most_one. rewrite typing_count_app, Hc. cbn. lia.
  - cbn [shown log set_messages messages].
    rewrite typing_count_app, Hc. reflexivity.
Qed.

Lemma remove_first_typing_count ms :
  typing_count (remove_first_typing ms) <= typing_count ms.
Proof.
  unfold typing_count.
  induction ms as [|[a text|id] ms IH]; cbn; [lia|exact IH|lia].
Qed.

Lemma removals_bounded k ms :
  at_most_one ms -> Forall at_most_one (removals k ms).
Proof.
  revert ms. induction k as [|k IH]; intros ms Hc; cbn; [constructor|].
  assert (Hr : at_most_one (remove_first_typing ms)).
  { unfold at_most_one in *. pose proof (remove_first_typing_count ms). lia. }
  constructor; [exact Hr | apply IH, Hr].
Qed.

Lemma calm_hidden w :
  at_most_one (messages w) -> calm w ->
  calm (hidden w) /\ typing_count (messages (hidden w)) = 0.
Proof.
  intros Hc Hw. split.
  - unfold calm, snapshots. rewrite read_hidden.
    apply Forall_app. split; [assumption|].
    generalize (removals_bounded (typing_count (messages w)) Hc).
    generalize (removals (typing_count (messages w)) (messages w)).
    intros l Hl. induction Hl; cbn; constructor; assumption.
  - rewrite hidden_messages. apply typing_count_strip.
Qed.

Lemma calm_sent now net w :
  typing_count (messages w) = 0 -> calm w ->
  calm (sent now net w) /\ typing_count (messages (sent now net w)) = 0.
Proof.
  intros Hc Hw. unfold sent.
  set (w1 := appended (trim (textarea w)) "user" w).
  assert (H1 : calm w1 /\ typing_count (messages w1) = 0).
  { subst w1. split.
    - apply calm_appended; [unfold at_most_one; lia | assumption].
    - now rewrite appended_count. }
  destruct H1 as [H1 C1].
  set (w2 := log (InputValue "") (set_textarea "" w1)).
  assert (H2 : calm w2 /\ typing_count (messages w2) = 0).
  { subst w2. split; [|exact C1]. apply calm_log; [constructor|exact H1]. }
  destruct H2 as [H2 C2].
  destruct (calm_shown now C2 H2) as [H3 C3].
  destruct (@calm_settled net (trim (textarea w)) (shown now w2)) as [H4 C4].
  { unfold at_most_one. lia. }
  { exact H3. }
  apply calm_hidden; [|exact H4].
  unfold at_most_one. rewrite C4, C3. lia.
Qed.

(** The two halves of the invariant of a widget at rest. *)
Lemma submit_at_rest w s :
  at_rest w -> at_rest (submit w s).
Proof.
  intros [Hc Hw]. unfold submit.
  destruct (falsy (trim (input s))) eqn:Hin.
  - rewrite _onSend_noop by exact Hin. split; assumption.
  - rewrite _onSend_run by exact Hin. cbn [snd].
    destruct (@calm_sent (at_time s) (answer s) (set_textarea (input s) w)) as [H1 H2];
      try assumption.
    split; assumption.
Qed.

Lemma run_at_rest sends w : at_rest w -> at_rest (run sends w).
Proof.
  revert w. induction sends as [|s sends IH]; intros w Hw; [exact Hw|].
  cbn. apply IH, submit_at_rest, Hw.
Qed.

Lemma new_at_rest o random href : at_rest (new_ChatWidget o random href).
Proof. split; [reflexivity|constructor]. Qed.


(** ** Requests along the trace *)

Lemma request_of_same w w' message :
  same_session w w' -> request_of w' message = request_of w message.
Proof. intros (Ho & Hs & Hl). unfold request_of. now rewrite Ho, Hs, Hl. Qed.

Lemma exchange_requested ep net : fst (exchange ep net) = negb (falsy ep).
Proof. unfold exchange. destruct (falsy ep); [|destruct net]; reflexivity. Qed.

Lemma appended_fetches text who w :
  fetches (trace (appended text who w)) = fetches (trace w).
Proof.
  unfold fetches. rewrite read_appended. cbn.
  destruct (onMessageReceived (opts w)); cbn; now rewrite app_nil_r.
Qed.

Lemma replied_fetches texts w :
  fetches (trace (replied texts w)) = fetches (trace w).
Proof.
  revert w. induction texts as [|s texts IH]; intros w; [reflexivity|].
  cbn. unfold replied in IH. now rewrite IH, appended_fetches.
Qed.

Lemma hidden_fetches w : fetches (trace (hidden w)) = fetches (trace w).
Proof.
  unfold fetches. rewrite read_hidden.
  generalize (removals (typing_count (messages w)) (messages w)).
  intros l. induction l as [|ms l IH]; cbn; [now rewrite app_nil_r | exact IH].
Qed.

Lemma settled_fetches net message w :
  fetches (trace (settled net message w))
  = fetches (trace w)
    ++ if falsy (endpoint (opts w)) then [] else [request_of w message].
Proof.
  unfold settled. pose proof (exchange_requested (endpoint (opts w)) net) as Hr.
  destruct (exchange _ net) as [requested [texts err]]. cbn in Hr. subst requested.
  assert (H1 : fetches (trace (replied texts
      (if negb (falsy (endpoint (opts w)))
       then log (Fetch (request_of w message)) w else w)))
    = fetches (trace w)
      ++ if falsy (endpoint (opts w)) then [] else [request_of w message]).
  { rewrite replied_fetches. destruct (falsy (endpoint (opts w))); cbn.
    - now rewrite app_nil_r.
    - unfold fetches. rewrite flat_map_app. reflexivity. }
  destruct err as [e|]; [|exact H1].
  rewrite appended_fetches. unfold fetches at 1. rewrite read_log.
  cbn [request_in]. rewrite app_nil_r. exact H1.
Qed.

Lemma sent_fetches now net w :
  fetches (trace (sent now net w))
  = fetches (trace w)
    ++ if falsy (endpoint (opts w)) then []
       else [request_of w (trim (textarea w))].
Proof.
  unfold sent. rewrite hidden_fetches, settled_fetches.
  set (w1 := appended (trim (textarea w)) "user" w).
  set (w3 := shown now (log (InputValue "") (set_textarea "" w1))).
  assert (Hs : same_session w w3).
  { eapply same_session_trans; [apply appended_session|]. repeat split. }
  rewrite (request_of_same _ Hs). destruct Hs as (-> & _ & _).
  f_equal. subst w3. unfold fetches at 1. rewrite read_shown. cbn [request_in].
  rewrite !app_nil_r. rewrite read_log. cbn [request_in]. rewrite app_nil_r.
  apply appended_fetches.
Qed.

(** ** Calls of the observer along the trace *)


Lemma told_same w w' ns : same_session w w' -> told w' ns = told w ns.
Proof. intros (Ho & Hs & _). unfold told. now rewrite Ho, Hs. Qed.

Lemma told_app w ns ns' : told w (ns ++ ns') = told w ns ++ told w ns'.
Proof.
  unfold told. destruct (onMessageReceived (opts w)); [|reflexivity].
  apply flat_map_app.
Qed.

Lemma told_nil w : told w [] = [].
Proof. unfold told. now destruct (onMessageReceived (opts w)). Qed.

Lemma appended_calls text who w :
  observer_calls (trace (appended text who w))
  = observer_calls (trace w)
    ++ match onMessageReceived (opts w) with
       | Some _ => [hook_arg who text (sessionId w)]
       | None => []
       end.
Proof.
  unfold observer_calls. rewrite read_appended. cbn [call_of app].
  destruct (onMessageReceived (opts w)); reflexivity.
Qed.

Lemma appended_calls_bot text w :
  observer_calls (trace (appended text "bot" w))
  = observer_calls (trace w) ++ told w [Msg bot text].
Proof.
  rewrite appended_calls. unfold told.
  destruct (onMessageReceived (opts w)); reflexivity.
Qed.

Lemma appended_calls_user text w :
  observer_calls (trace (appended text "user" w))
  = observer_calls (trace w) ++ told w [Msg user text].
Proof.
  rewrite appended_calls. unfold told.
  destruct (onMessageReceived (opts w)); reflexivity.
Qed.

Lemma shown_calls now w :
  observer_calls (trace (shown now w)) = observer_calls (trace w).
Proof. unfold observer_calls. rewrite read_shown. cbn. now rewrite app_nil_r. Qed.

Lemma hidden_calls w :
  observer_calls (trace (hidden w)) = observer_calls (trace w).
Proof.
  unfold observer_calls. rewrite read_hidden.
  generalize (removals (typing_count (messages w)) (messages w)).
  intros l. induction l as [|ms l IH]; cbn; [now rewrite app_nil_r | exact IH].
Qed.

Lemma replied_calls texts w :
  observer_calls (trace (replied texts w))
  = observer_calls (trace w) ++ told w (map (Msg bot) texts).
Proof.
  revert w. induction texts as [|s texts IH]; intros w.
  - cbn. now rewrite told_nil, app_nil_r.
  - cbn [replied fold_left map]. unfold replied in IH. rewrite IH.
    rewrite appended_calls_bot, (told_same _ (appended_session s "bot" w)).
    rewrite <- app_assoc, <- told_app. reflexivity.
Qed.

Lemma settled_calls net message w :
  observer_calls (trace (settled net message w))
  = observer_calls (trace w)
    ++ told w (map (Msg bot) (bot_texts (endpoint (opts w)) net)).
Proof.
  unfold settled, bot_texts.
  destruct (exchange _ net) as [requested [texts err]].
  set (w1 := if requested then log (Fetch (request_of w message)) w else w).
  assert (Hs : same_session w w1) by (subst w1; destruct requested; repeat split).
  assert (Hc : observer_calls (trace w1) = observer_calls (trace w)).
  { subst w1. destruct requested; [|reflexivity].
    unfold observer_calls. rewrite read_log. cbn. now rewrite app_nil_r. }
  assert (H1 : observer_calls (trace (replied texts w1))
               = observer_calls (trace w) ++ told w (map (Msg bot) texts)).
  { now rewrite replied_calls, Hc, (told_same _ Hs). }
  destruct err as [e|]; [|exact H1].
  rewrite appended_calls_bot.
  assert (Hs2 : same_session w
    (log (ConsoleError "ChatWidget send error" e) (replied texts w1))).
  { eapply same_session_trans; [exact Hs|].
    eapply same_session_trans; [apply replied_session|]. repeat split. }
  rewrite (told_same _ Hs2). unfold observer_calls at 1. rewrite read_log.
  cbn [call_of]. rewrite app_nil_r. fold (observer_calls (trace (replied texts w1))).
  rewrite H1, map_app, told_app, <- app_assoc. reflexivity.
Qed.

Lemma sent_calls now net w :
  observer_calls (trace (sent now net w))
  = observer_calls (trace w)
    ++ told w (Msg user (trim (textarea w))
               :: map (Msg bot) (bot_texts (endpoint (opts w)) net)).
Proof.
  unfold sent. rewrite hidden_calls, settled_calls.
  set (w1 := appended (trim (textarea w)) "user" w).
  set (w3 := shown now (log (InputValue "") (set_textarea "" w1))).
  assert (Hs : same_session w w3).
  { eapply same_session_trans; [apply appended_session|]. repeat split. }
  rewrite (told_same _ Hs). destruct Hs as (-> & _ & _).
  subst w3. rewrite shown_calls. unfold observer_calls at 1. rewrite read_log.
  cbn [call_of set_textarea trace]. rewrite app_nil_r.
  fold (observer_calls (trace w1)). subst w1. rewrite appended_calls_user.
  rewrite <- app_assoc, <- told_app. reflexivity.
Qed.


(** ** The text area after each step *)

Lemma appended_textarea text who w : textarea (appended text who w) = textarea w.
Proof. unfold appended. destruct (onMessageReceived (opts w)); reflexivity. Qed.

Lemma replied_textarea texts w : textarea (replied texts w) = textarea w.
Proof.
  revert w. induction texts as [|s texts IH]; intros w; [reflexivity|].
  cbn. unfold replied in IH. now rewrite IH, appended_textarea.
Qed.

Lemma settled_textarea net message w : textarea (settled net message w) = textarea w.
Proof.
  unfold settled. destruct (exchange _ net) as [requested [texts [e|]]].
  - rewrite appended_textarea. cbn [log textarea]. rewrite replied_textarea.
    now destruct requested.
  - rewrite replied_textarea. now destruct requested.
Qed.

Lemma sent_textarea now net w : textarea (sent now net w) = "".
Proof. unfold sent. cbn [hidden log_all set_messages textarea]. now rewrite settled_textarea. Qed.

Lemma sent_extends now net w :
  exists rest,
    trace (sent now net w)
    = trace (appended (trim (textarea w)) "user" w) ++ InputValue "" :: rest.
Proof.
  unfold sent. set (w1 := appended (trim (textarea w)) "user" w).
  set (w2 := log (InputValue "") (set_textarea "" w1)).
  destruct (settled_extends net (trim (textarea w)) (shown now w2)) as [evs Hevs].
  eexists. rewrite hidden_trace, Hevs, shown_trace. subst w2.
  cbn [log set_textarea trace]. rewrite <- !app_assoc. cbn [app]. reflexivity.
Qed.

(** ** Trimming *)

Lemma trimStart_whitespace s : whitespace_only s = true -> trimStart s = "".
Proof.
  induction s as [|c s IH]; cbn; [reflexivity|].
  destruct (isWhiteSpace c); [exact IH | discriminate].
Qed.

Lemma trim_whitespace s : whitespace_only s = true -> trim s = "".
Proof. intros Hs. unfold trim. now rewrite trimStart_whitespace. Qed.

Lemma trimEnd_empty s : trimEnd s = "" -> whitespace_only s = true.
Proof.
  induction s as [|c s IH]; cbn; [reflexivity|].
  destruct (trimEnd s); [|discriminate].
  destruct (isWhiteSpace c); [intros _; now apply IH | discriminate].
Qed.

Lemma trimStart_keeps s : whitespace_only (trimStart s) = true -> whitespace_only s = true.
Proof.
  induction s as [|c s IH]; cbn; [reflexivity|].
  destruct (isWhiteSpace c) eqn:Hc; [exact IH|].
  cbn. now rewrite Hc.
Qed.

Lemma trim_empty s : trim s = "" -> whitespace_only s = true.
Proof. intros Hs. apply trimStart_keeps, trimEnd_empty, Hs. Qed.

Lemma falsy_trim s : falsy (trim s) = whitespace_only s.
Proof.
  destruct (whitespace_only s) eqn:Hs.
  - now rewrite trim_whitespace.
  - destruct (trim s) eqn:Ht; [|reflexivity].
    apply trim_empty in Ht. congruence.
Qed.

(** ** Resolution *)

Lemma coerce_all_defined rs ss :
  sequence (map ToString rs) = Some ss -> coerce_all rs = (ss, None).
Proof.
  revert ss. induction rs as [|r rs IH]; intros ss; cbn.
  - now intros [= <-].
  - destruct (ToString r) as [s|]; [|discriminate].
    destruct (sequence (map ToString rs)) as [ss'|]; [|discriminate].
    intros [= <-]. now rewrite (IH ss').
Qed.

Lemma policy_resolve j texts : policy j = Some texts -> resolve j = (texts, None).
Proof.
  unfold policy, resolve.
  assert (Htext :
    match get j "text" with
    | Some v =>
        if ToBoolean v then option_map (fun s => [s]) (ToString v)
        else Some [JSON_stringify j]
    | None => Some [JSON_stringify j]
    end = Some texts ->
    match get j "text" with
    | Some v =>
        if ToBoolean v
        then match ToString v with
             | Some s => ([s], None)
             | None => ([], Some cannot_convert)
             end
        else ([JSON_stringify j], None)
    | None => ([JSON_stringify j], None)
    end = (texts, None)).
  { destruct (get j "text") as [v|]; [|now intros [= <-]].
    destruct (ToBoolean v); [|now intros [= <-]].
    destruct (ToString v); cbn; [now intros [= <-] | discriminate]. }
  assert (Hreplies :
    match get j "replies" with
    | Some (VArr replies) => sequence (map ToString replies)
    | _ =>
        match get j "text" with
        | Some v =>
            if ToBoolean v then option_map (fun s => [s]) (ToString v)
            else Some [JSON_stringify j]
        | None => Some [JSON_stringify j]
        end
    end = Some texts ->
    match get j "replies" with
    | Some (VArr replies) => coerce_all replies
    | _ =>
        match get j "text" with
        | Some v =>
            if ToBoolean v
            then match ToString v with
                 | Some s => ([s], None)
                 | None => ([], Some cannot_convert)
                 end
            else ([JSON_stringify j], None)
        | None => ([JSON_stringify j], None)
        end
    end = (texts, None)).
  { destruct (get j "replies") as [[| | | |rs|]|]; try exact Htext.
    apply coerce_all_defined. }
  destruct (get j "reply") as [[| | |s| |]|]; try exact Hreplies.
  now intros [= <-].
Qed.

Lemma error_outcome_texts ep net :
  error_outcome ep net = true ->
  exists e, exchange ep net = (negb (falsy ep), ([], Some e)).
Proof.
  unfold error_outcome, exchange, classify.
  destruct (falsy ep); [intros _; eexists; reflexivity|]. cbn.
  destruct net as [e|res]; [intros _; eexists; reflexivity|].
  destruct (negb (ok res)); [intros _; eexists; reflexivity|]. cbn.
  destruct (body_json res) as [j|]; [|intros _; eexists; reflexivity].
  destruct (ToBoolean j); [discriminate | intros _; eexists; reflexivity].
Qed.

(** ** Runs *)

Lemma submit_session w s : same_session w (submit w s).
Proof.
  unfold submit. destruct (falsy (trim (input s))) eqn:Hin.
  - rewrite _onSend_noop by exact Hin. repeat split.
  - rewrite _onSend_run by exact Hin. cbn [snd].
    eapply same_session_trans; [|apply sent_session]. repeat split.
Qed.

Lemma run_session sends w : same_session w (run sends w).
Proof.
  revert w. induction sends as [|s sends IH]; intros w; [apply same_session_refl|].
  cbn. eapply same_session_trans; [apply submit_session | apply IH].
Qed.

Lemma entries_no_typing ep s : typing_count (entries ep s) = 0.
Proof.
  unfold entries. destruct (falsy (trim (input s))); [reflexivity|].
  change (typing_count (map (Msg bot) (bot_texts ep (answer s))) = 0).
  apply typing_count_bots.
Qed.

Lemma submit_messages w s :
  typing_count (messages w) = 0 ->
  messages (submit w s) = messages w ++ entries (endpoint (opts w)) s.
Proof.
  intros Hc. unfold submit, entries.
  destruct (falsy (trim (input s))) eqn:Hin.
  - rewrite _onSend_noop by exact Hin. cbn. now rewrite app_nil_r.
  - rewrite _onSend_run by exact Hin. cbn [snd]. rewrite sent_messages.
    cbn [set_textarea messages textarea opts].
    now rewrite strip_without_typing.
Qed.

Lemma submit_fetches w s :
  fetches (trace (submit w s))
  = fetches (trace w)
    ++ if falsy (trim (input s)) || falsy (endpoint (opts w)) then []
       else [request_of w (trim (input s))].
Proof.
  unfold submit. destruct (falsy (trim (input s))) eqn:Hin.
  - rewrite _onSend_noop by exact Hin. cbn. now rewrite app_nil_r.
  - rewrite _onSend_run by exact Hin. cbn [snd]. rewrite sent_fetches.
    reflexivity.
Qed.

Lemma request_sessionId w message :
  get (payload (request_of w message)) "sessionId" = Some (VStr (sessionId w)).
Proof. reflexivity. Qed.

Lemma request_message w message :
  get (payload (request_of w message)) "message" = Some (VStr message).
Proof. reflexivity. Qed.

Lemma run_fetches sends w :
  Forall (fun r => get (payload r) "sessionId" = Some (VStr (sessionId w)))
         (fetches (trace w)) ->
  Forall (fun r => get (payload r) "sessionId" = Some (VStr (sessionId w)))
         (fetches (trace (run sends w))).
Proof.
  revert w. induction sends as [|s sends IH]; intros w Hw; [exact Hw|].
  cbn [run fold_left]. fold (run sends (submit w s)).
  destruct (submit_session w s) as (_ & Hsid & _).
  rewrite <- Hsid. apply IH. rewrite Hsid, submit_fetches.
  apply Forall_app. split; [exact Hw|].
  destruct (_ || _); constructor; [apply request_sessionId | constructor].
Qed.


(** * The claims *)

(** C1, as amended.  A parsed success body that is truthy is resolved by
    exactly one rule, chosen by fixed precedence: a string [reply] is appended
    as the one bot message; else the elements of an array [replies] are
    appended in array order, each coerced to a string (none for an empty
    array); else a truthy [text] is appended, coerced to a string; else the
    whole body is appended as compact JSON text.  This is [policy], and it is
    what [sendMessageToEndpoint] appends wherever the coercions are defined;
    the transport then returns normally. *)
Theorem reply_resolution_precedence message res j texts w :
  falsy (endpoint (opts w)) = false ->
  ok res = true ->
  body_json res = Some j ->
  ToBoolean j = true ->
  policy j = Some texts ->
  fst (sendMessageToEndpoint (Responded res) message w) = Normal tt
  /\ messages (snd (sendMessageToEndpoint (Responded res) message w))
     = messages w ++ map (Msg bot) texts.
Proof.
  intros Hep Hok Hj Htruthy Hpolicy.
  rewrite sendMessageToEndpoint_run.
  unfold exchange, classify. rewrite Hep, Hok, Hj, Htruthy. cbn [negb].
  rewrite (policy_resolve _ Hpolicy). cbn [fst snd].
  split; [reflexivity|]. now rewrite replied_messages.
Qed.

(** C2.  A send that ends in an error outcome (no endpoint, network failure,
    status outside 2xx, unparseable body) appends, after the user's own
    message, exactly one bot entry, the fixed apology, and nothing else: the
    transport itself throws without having appended anything, [_onSend]
    returns normally, and no typing entry is left. *)
Theorem failure_fallback now net w :
  falsy (trim (textarea w)) = false ->
  error_outcome (endpoint (opts w)) net = true ->
  fst (_onSend now net w) = Normal tt
  /\ messages (snd (_onSend now net w))
     = strip (messages w) ++ [Msg user (trim (textarea w)); Msg bot apology]
  /\ typing_count (messages (snd (_onSend now net w))) = 0
  /\ (forall message,
        (exists e, fst (sendMessageToEndpoint net message w) = Abrupt e)
        /\ messages (snd (sendMessageToEndpoint net message w)) = messages w).
Proof.
  intros Hfull Herr.
  destruct (error_outcome_texts _ _ Herr) as [e He].
  rewrite _onSend_run by exact Hfull. cbn [fst snd].
  assert (Hm : messages (sent now net w)
    = strip (messages w) ++ [Msg user (trim (textarea w)); Msg bot apology]).
  { rewrite sent_messages. unfold bot_texts. rewrite He. reflexivity. }
  split; [reflexivity|]. split; [exact Hm|]. split.
  - rewrite Hm, typing_count_app, typing_count_strip. reflexivity.
  - intros message. rewrite sendMessageToEndpoint_run, He. cbn [fst snd].
    split; [now exists e|].
    rewrite replied_messages. cbn. rewrite app_nil_r.
    now destruct (negb (falsy (endpoint (opts w)))).
Qed.

(** C3.  After any sequence of sends, each run to completion before the next
    is issued, the transcript is the earlier transcript followed by the
    entries of each send in call order: the user's message, then the bot
    messages of that send (its replies, its apology), and nothing in between. *)
Theorem transcript_ordering sends w :
  typing_count (messages w) = 0 ->
  messages (run sends w)
  = messages w ++ flat_map (entries (endpoint (opts w))) sends.
Proof.
  revert w. induction sends as [|s sends IH]; intros w Hc.
  - cbn. now rewrite app_nil_r.
  - cbn [run fold_left flat_map]. fold (run sends (submit w s)).
    pose proof (@submit_messages w s Hc) as Hs.
    destruct (submit_session w s) as (Ho & _ & _).
    rewrite IH.
    + rewrite Ho, Hs, <- app_assoc. reflexivity.
    + rewrite Hs, typing_count_app, Hc, entries_no_typing. reflexivity.
Qed.

(** C4.  Under single flight, that is when each send is issued on a widget
    at rest, the widget is at rest again once the send has settled, whatever
    its outcome, and every message list the page went through on the way
    holds at most one typing entry; so it is over the whole life of a widget
    whose sends come one after the other.  [_hideTyping] removes every typing
    entry and does not look at its argument. *)
Theorem typing_indicator_invariant :
  (forall now net w, at_rest w -> at_rest (snd (_onSend now net w)))
  /\ (forall o random href sends, at_rest (run sends (new_ChatWidget o random href)))
  /\ (forall dummy dummy' w,
        _hideTyping dummy w = _hideTyping dummy' w
        /\ fst (_hideTyping dummy w) = Normal tt
        /\ messages (snd (_hideTyping dummy w)) = strip (messages w)
        /\ typing_count (messages (snd (_hideTyping dummy w))) = 0).
Proof.
  split; [|split].
  - intros now net w [Hc Hw].
    destruct (falsy (trim (textarea w))) eqn:Hin.
    + rewrite _onSend_noop by exact Hin. split; assumption.
    + rewrite _onSend_run by exact Hin. cbn [snd].
      destruct (@calm_sent now net w Hc Hw) as [H1 H2]. split; assumption.
  - intros o random href sends. apply run_at_rest, new_at_rest.
  - intros dummy dummy' w. rewrite !_hideTyping_run. cbn [fst snd].
    rewrite hidden_messages. repeat split. apply typing_count_strip.
Qed.

(** C5.  With an input that is empty or all white space, [_onSend] changes
    nothing: the transcript, the text area and the trace (so no typing entry,
    no request, no call of the observer) are the ones before. *)
Theorem empty_input_noop now net w :
  whitespace_only (textarea w) = true ->
  _onSend now net w = (Normal tt, w).
Proof.
  intros Hs. apply _onSend_noop. now rewrite falsy_trim.
Qed.

(** C6, as amended.  Every request a widget sends over its lifetime carries
    the [sessionId] the widget was constructed with, which no send changes;
    it is the host-supplied one when the host supplied a non-empty string. *)
Theorem session_stability o random href sends :
  let w0 := new_ChatWidget o random href in
  Forall (fun r => get (payload r) "sessionId" = Some (VStr (sessionId w0)))
         (fetches (trace (run sends w0)))
  /\ sessionId (run sends w0) = sessionId w0
  /\ (forall s, opts_sessionId o = Some s -> falsy s = false -> sessionId w0 = s).
Proof.
  intros w0. split; [|split].
  - apply run_fetches. constructor.
  - apply run_session.
  - intros s Hs Hfull. subst w0. cbn. now rewrite Hs, Hfull.
Qed.

(** C7.  When the observer throws on being told of an entry, [_appendMsg]
    still returns normally and the entry is in the transcript; the call and
    what it threw are on the trace, and nothing reaches the caller. *)
Theorem observer_isolation text who w f e :
  onMessageReceived (opts w) = Some f ->
  f (trace (rendered text who w)) (hook_arg who text (sessionId w)) = Some e ->
  fst (_appendMsg text who w) = Normal tt
  /\ messages (snd (_appendMsg text who w)) = messages w ++ [Msg (class_of who) text]
  /\ In (ObserverCall (hook_arg who text (sessionId w)) (Some e))
        (trace (snd (_appendMsg text who w))).
Proof.
  intros Hf He. rewrite _appendMsg_run. cbn [fst snd].
  split; [reflexivity|]. split; [apply appended_messages|].
  rewrite appended_trace, Hf, He. apply in_or_app. right. cbn. auto.
Qed.

(** C8, as amended.  For every message appended while an observer is
    configured, the observer is called exactly once, with an object whose
    fields are [who], [text] and [sessionId]: the author string the entry was
    appended under, the text of the entry and the session of the widget.  For
    the two authors the widget itself uses, [who] names the rendered class. *)
Theorem observer_notified_once text who w f :
  onMessageReceived (opts w) = Some f ->
  messages (snd (_appendMsg text who w)) = messages w ++ [Msg (class_of who) text]
  /\ observer_calls (trace (snd (_appendMsg text who w)))
     = observer_calls (trace w)
       ++ [VObj [("who", VStr who); ("text", VStr text);
                 ("sessionId", VStr (sessionId w))]]
  /\ (who = "user" \/ who = "bot" -> name_of (class_of who) = who).
Proof.
  intros Hf. rewrite _appendMsg_run. cbn [snd].
  split; [apply appended_messages|]. split.
  - rewrite appended_calls, Hf. reflexivity.
  - intros [-> | ->]; reflexivity.
Qed.

(** C9.  For an input that is not all white space, the user entry is the
    trimmed input; the text area is cleared right after that entry is
    appended and before anything else happens; and the request, made when an
    endpoint is configured, carries the trimmed input as its [message]. *)
Theorem trimmed_input_is_sent now net w :
  whitespace_only (textarea w) = false ->
  let text := trim (textarea w) in
  let w1 := snd (_appendMsg text "user" w) in
  let w' := snd (_onSend now net w) in
  messages w1 = messages w ++ [Msg user text]
  /\ (exists rest, trace w' = trace w1 ++ InputValue "" :: rest)
  /\ textarea w' = ""
  /\ messages w'
     = strip (messages w)
       ++ Msg user text :: map (Msg bot) (bot_texts (endpoint (opts w)) net)
  /\ fetches (trace w')
     = fetches (trace w)
       ++ (if falsy (endpoint (opts w)) then [] else [request_of w text])
  /\ get (payload (request_of w text)) "message" = Some (VStr text).
Proof.
  intros Hs text w1 w'. subst text w1 w'.
  rewrite <- falsy_trim in Hs.
  rewrite _onSend_run by exact Hs. rewrite _appendMsg_run. cbn [snd].
  split; [apply appended_messages|].
  split; [apply sent_extends|].
  split; [apply sent_textarea|].
  split; [apply sent_messages|].
  split; [apply sent_fetches|reflexivity].
Qed.

(** C10.  Showing and hiding the typing indicator tell the observer nothing.
    Over a whole send the observer is told of the user entry and of each bot
    entry, in order, and of nothing else. *)
Theorem typing_indicator_is_silent now net dummy w :
  observer_calls (trace (snd (_showTyping now w))) = observer_calls (trace w)
  /\ observer_calls (trace (snd (_hideTyping dummy w))) = observer_calls (trace w)
  /\ observer_calls (trace (snd (_onSend now net w)))
     = observer_calls (trace w)
       ++ if whitespace_only (textarea w) then []
          else told w (Msg user (trim (textarea w))
                       :: map (Msg bot) (bot_texts (endpoint (opts w)) net)).
Proof.
  rewrite _showTyping_run, _hideTyping_run. cbn [snd].
  split; [apply shown_calls|]. split; [apply hidden_calls|].
  rewrite <- falsy_trim. destruct (falsy (trim (textarea w))) eqn:Hin.
  - rewrite _onSend_noop by exact Hin. cbn. now rewrite app_nil_r.
  - rewrite _onSend_run by exact Hin. apply sent_calls.
Qed.

(** * Further properties *)

(** ** A send in two halves *)

Lemma handle_answer_run net w :
  handle_answer net w
  = (match snd (answered net) with
     | Some e => Abrupt e
     | None => Normal tt
     end,
     replied (fst (answered net)) w).
Proof.
  unfold handle_answer, answered.
  unfold bind at 1.
  destruct net as [e|res]; [reflexivity|].
  unfold ret at 1. unfold classify.
  destruct (negb (ok res)); [reflexivity|].
  destruct (body_json res) as [j|]; [|reflexivity].
  destruct (ToBoolean j); [|reflexivity].
  cbn [negb]. unfold resolve.
  assert (Htext :
    (if truthy (get j "text")
     then s <- String_ (get j "text") ;; _appendMsg s "bot"
     else _appendMsg (JSON_stringify j) "bot") w
    = (match snd (match get j "text" with
                  | Some v =>
                      if ToBoolean v
                      then match ToString v with
                           | Some s => ([s], None)
                           | None => ([], Some cannot_convert)
                           end
                      else ([JSON_stringify j], None)
                  | None => ([JSON_stringify j], None)
                  end) with
       | Some e => Abrupt e
       | None => Normal tt
       end,
       replied (fst (match get j "text" with
                     | Some v =>
                         if ToBoolean v
                         then match ToString v with
                              | Some s => ([s], None)
                              | None => ([], Some cannot_convert)
                              end
                         else ([JSON_stringify j], None)
                     | None => ([JSON_stringify j], None)
                     end)) w)).
  { destruct (get j "text") as [v|]; cbn [truthy].
    - destruct (ToBoolean v).
      + unfold bind, String_. destruct (ToString v) as [s|].
        * unfold ret. rewrite _appendMsg_run. reflexivity.
        * reflexivity.
      + rewrite _appendMsg_run. reflexivity.
    - rewrite _appendMsg_run. reflexivity. }
  destruct (get j "reply") as [[| | |s| |]|];
    try (destruct (get j "replies") as [[| | | |rs|]|];
         first [exact Htext | apply coerce_each_run]).
  rewrite _appendMsg_run. reflexivity.
Qed.

Lemma issue_request_run message w :
  issue_request message w
  = if falsy (endpoint (opts w))
    then (Abrupt (Error "ChatWidget: endpoint option required"), w)
    else (Normal tt, log (Fetch (request_of w message)) w).
Proof.
  unfold issue_request, bind, gets. destruct (falsy (endpoint (opts w))); reflexivity.
Qed.

Lemma exchange_answered ep net :
  exchange ep net
  = (negb (falsy ep),
     if falsy ep then ([], Some (Error "ChatWidget: endpoint option required"))
     else answered net).
Proof. unfold exchange, answered. destruct (falsy ep); [|destruct net]; reflexivity. Qed.

Lemma sendMessageToEndpoint_split net message w :
  sendMessageToEndpoint net message w
  = (issue_request message ;; handle_answer net) w.
Proof.
  rewrite sendMessageToEndpoint_run, exchange_answered.
  unfold bind. rewrite issue_request_run.
  destruct (falsy (endpoint (opts w))); [reflexivity|].
  rewrite handle_answer_run. cbn [negb]. now destruct (answered net).
Qed.

Lemma submission_nothing now w :
  falsy (trim (textarea w)) = true -> submission now w = (Normal None, w).
Proof. intros Hb. unfold submission, bind, gets. now rewrite Hb. Qed.

Lemma submission_run now w :
  falsy (trim (textarea w)) = false ->
  submission now w = (Normal (Some (pending now w)), submitted now w).
Proof.
  intros Hfull. unfold submission, submitted, pending.
  unfold bind at 1. unfold gets at 1. rewrite Hfull.
  unfold bind at 1. rewrite _appendMsg_run.
  unfold bind at 1. unfold set_value at 1.
  unfold bind at 1. rewrite _showTyping_run.
  set (w3 := shown now _).
  assert (Hep : endpoint (opts w3) = endpoint (opts w)).
  { subst w3. cbn [shown log set_messages set_textarea opts].
    now destruct (appended_session (trim (textarea w)) "user" w) as (-> & _). }
  unfold bind, try_catch. rewrite issue_request_run, Hep.
  destruct (falsy (endpoint (opts w))); reflexivity.
Qed.

Lemma resumption_run net p w :
  resumption net p w = (Normal tt, resumed net p w).
Proof.
  unfold resumption, resumed, outcome, try_finally, try_catch.
  destruct (rejected_early p) as [e|].
  - unfold throw, bind, console_error, emit, modify.
    rewrite _appendMsg_run, _hideTyping_run. reflexivity.
  - rewrite handle_answer_run. destruct (answered net) as [texts [e|]]; cbn [fst snd].
    + unfold bind, console_error, emit, modify.
      rewrite _appendMsg_run, _hideTyping_run. reflexivity.
    + rewrite _hideTyping_run. reflexivity.
Qed.

Lemma submitted_session now w : same_session w (submitted now w).
Proof.
  unfold submitted.
  assert (H3 : same_session w
    (shown now (log (InputValue "") (set_textarea "" (appended (trim (textarea w)) "user" w))))).
  { eapply same_session_trans; [apply appended_session|]. repeat split. }
  destruct (falsy (endpoint (opts w))); [exact H3|].
  eapply same_session_trans; [exact H3|]. repeat split.
Qed.

Lemma resumed_pending now net w w' :
  endpoint (opts w') = endpoint (opts w) ->
  resumed net (pending now w) w'
  = hidden (let '(_, (texts, err)) := exchange (endpoint (opts w)) net in
            match err with
            | Some e =>
                appended apology "bot"
                  (log (ConsoleError "ChatWidget send error" e) (replied texts w'))
            | None => replied texts w'
            end).
Proof.
  intros Hep. unfold resumed, outcome, pending. cbn [rejected_early].
  rewrite exchange_answered.
  destruct (falsy (endpoint (opts w))); [reflexivity|].
  now destruct (answered net) as [texts [e|]].
Qed.

Lemma sent_in_two now net w :
  sent now net w = resumed net (pending now w) (submitted now w).
Proof.
  rewrite (@resumed_pending now net w (submitted now w)).
  2:{ now destruct (submitted_session now w) as (-> & _). }
  unfold sent, settled, submitted.
  set (w3 := shown now _).
  assert (Hep : endpoint (opts w3) = endpoint (opts w)).
  { subst w3. cbn [shown log set_messages set_textarea opts].
    now destruct (appended_session (trim (textarea w)) "user" w) as (-> & _). }
  rewrite Hep, exchange_answered.
  destruct (falsy (endpoint (opts w))); cbn [negb]; [reflexivity|].
  now destruct (answered net) as [texts [e|]].
Qed.

Lemma onSend_completes now net w : fst (_onSend now net w) = Normal tt.
Proof.
  destruct (falsy (trim (textarea w))) eqn:Hin.
  - now rewrite _onSend_noop.
  - now rewrite _onSend_run.
Qed.

(** X1.  [_onSend] never throws: whatever is in the text area, whatever the
    environment answers and whatever the observer does, it completes
    normally. *)
Theorem onSend_never_throws now net w :
  fst (_onSend now net w) = Normal tt.
Proof. apply onSend_completes. Qed.

(** X2.  A send run to completion is its submission, up to the [await],
    followed by its resumption on the widget the submission left. *)
Theorem send_in_two_halves now net w :
  _onSend now net w = (p <- submission now ;; resume net p) w.
Proof.
  unfold bind. destruct (falsy (trim (textarea w))) eqn:Hin.
  - rewrite _onSend_noop, submission_nothing by exact Hin. reflexivity.
  - rewrite _onSend_run, submission_run by exact Hin. cbn [resume].
    rewrite resumption_run, sent_in_two. reflexivity.
Qed.

(** ** Overlapping sends *)

Lemma submitted_messages now w :
  messages (submitted now w)
  = messages w ++ [Msg user (trim (textarea w)); Typing (of_N now)].
Proof.
  unfold submitted.
  assert (H3 : messages
    (shown now (log (InputValue "") (set_textarea "" (appended (trim (textarea w)) "user" w))))
    = messages w ++ [Msg user (trim (textarea w)); Typing (of_N now)]).
  { cbn [shown log set_messages set_textarea messages].
    rewrite appended_messages, <- app_assoc. reflexivity. }
  destruct (falsy (endpoint (opts w))); exact H3.
Qed.

Lemma resumed_messages net p w :
  messages (resumed net p w)
  = strip (messages w) ++ map (Msg bot) (resumption_texts net p).
Proof.
  unfold resumed, resumption_texts.
  destruct (outcome net p) as [texts [e|]]; rewrite hidden_messages.
  - rewrite appended_messages. cbn [log messages].
    rewrite replied_messages, !strip_app, strip_bots, map_app, <- app_assoc.
    reflexivity.
  - rewrite replied_messages, strip_app, strip_bots. reflexivity.
Qed.

Lemma resumed_session net p w : same_session w (resumed net p w).
Proof.
  unfold resumed. destruct (outcome net p) as [texts [e|]].
  - eapply same_session_trans; [|apply hidden_session].
    eapply same_session_trans; [|apply appended_session].
    eapply same_session_trans; [apply replied_session|]. repeat split.
  - eapply same_session_trans; [apply replied_session | apply hidden_session].
Qed.

Lemma pending_texts now net w :
  resumption_texts net (pending now w) = bot_texts (endpoint (opts w)) net.
Proof.
  unfold resumption_texts, bot_texts, outcome, pending. cbn [rejected_early].
  rewrite exchange_answered. now destruct (falsy (endpoint (opts w))).
Qed.

Lemma pending_same now w w' :
  endpoint (opts w') = endpoint (opts w) -> pending now w' = pending now w.
Proof. intros Hep. unfold pending. now rewrite Hep. Qed.

(** X3.  Nothing keeps a second send from being submitted while a first is
    pending.  Then two typing entries are shown at once; the first answer to
    arrive removes both, though a send is still pending; and the bot messages
    follow both user messages in the order the answers came, not the order
    of the sends. *)
Theorem overlapping_sends o w :
  typing_count (messages w) = 0 ->
  whitespace_only (input (first o)) = false ->
  whitespace_only (input (second o)) = false ->
  exists ps w2 w3,
    both_submitted o w = (Normal ps, w2)
    /\ messages w2
       = messages w
         ++ [Msg user (trim (input (first o))); Typing (of_N (at_time (first o)));
             Msg user (trim (input (second o))); Typing (of_N (at_time (second o)))]
    /\ typing_count (messages w2) = 2
    /\ one_answered o ps w2 = (Normal tt, w3)
    /\ typing_count (messages w3) = 0
    /\ messages (snd (overlapping o w))
       = messages w
         ++ [Msg user (trim (input (first o))); Msg user (trim (input (second o)))]
         ++ map (Msg bot) (overlap_replies (endpoint (opts w)) o).
Proof.
  intros Hc H1 H2. rewrite <- falsy_trim in H1, H2.
  set (v1 := set_textarea (input (first o)) w).
  set (w1 := submitted (at_time (first o)) v1).
  set (v2 := set_textarea (input (second o)) w1).
  set (w2 := submitted (at_time (second o)) v2).
  set (p1 := pending (at_time (first o)) w).
  set (p2 := pending (at_time (second o)) w).
  assert (Hs1 : same_session w w1).
  { subst w1. eapply same_session_trans; [|apply submitted_session]. repeat split. }
  assert (Hs2 : same_session w w2).
  { subst w2. eapply same_session_trans; [exact Hs1|].
    eapply same_session_trans; [|apply submitted_session]. repeat split. }
  assert (Hboth : both_submitted o w = (Normal (Some p1, Some p2), w2)).
  { unfold both_submitted, bind, modify, ret. fold v1.
    rewrite (@submission_run (at_time (first o)) v1) by exact H1.
    fold w1. fold v2.
    rewrite (@submission_run (at_time (second o)) v2) by exact H2.
    fold w2.
    assert (Hp1 : pending (at_time (first o)) v1 = p1) by reflexivity.
    assert (Hp2 : pending (at_time (second o)) v2 = p2).
    { apply pending_same. subst v2. cbn [set_textarea opts].
      now destruct Hs1 as (-> & _). }
    now rewrite Hp1, Hp2. }
  assert (Hm2 : messages w2
    = messages w
      ++ [Msg user (trim (input (first o))); Typing (of_N (at_time (first o)));
          Msg user (trim (input (second o))); Typing (of_N (at_time (second o)))]).
  { subst w2 v2 w1 v1. rewrite !submitted_messages.
    cbn [set_textarea messages textarea]. rewrite submitted_messages.
    cbn [set_textarea messages textarea]. rewrite <- app_assoc. reflexivity. }
  assert (Hstrip : strip (messages w2)
    = messages w
      ++ [Msg user (trim (input (first o))); Msg user (trim (input (second o)))]).
  { rewrite Hm2, strip_app, (strip_without_typing _ Hc). reflexivity. }
  exists (Some p1, Some p2).
  exists w2.
  exists (snd (one_answered o (Some p1, Some p2) w2)).
  split; [exact Hboth|]. split; [exact Hm2|]. split.
  { rewrite Hm2, typing_count_app, Hc. reflexivity. }
  split.
  { unfold one_answered. destruct (second_answered_first o);
      cbn [fst snd resume]; rewrite resumption_run; reflexivity. }
  split.
  { unfold one_answered. destruct (second_answered_first o);
      cbn [fst snd resume]; rewrite resumption_run; cbn [snd];
      rewrite resumed_messages, typing_count_app, typing_count_strip,
        typing_count_bots; reflexivity. }
  unfold overlapping. unfold bind at 1. rewrite Hboth.
  unfold bind, one_answered, other_answered, overlap_replies.
  destruct (second_answered_first o); cbn [fst snd resume];
    rewrite !resumption_run; cbn [snd];
    rewrite !resumed_messages, strip_app, strip_bots, Hstrip;
    rewrite strip_app, (strip_without_typing _ Hc);
    subst p1 p2; rewrite !pending_texts, map_app, <- !app_assoc; reflexivity.
Qed.

(** ** Requests and reports of a run *)

Lemma run_requests sends w :
  fetches (trace (run sends w))
  = fetches (trace w)
    ++ if falsy (endpoint (opts w)) then []
       else map (fun s => request_of w (trim (input s))) (effective sends).
Proof.
  revert w. induction sends as [|s sends IH]; intros w.
  - cbn. destruct (falsy (endpoint (opts w))); now rewrite app_nil_r.
  - cbn [run fold_left]. fold (run sends (submit w s)). rewrite IH.
    pose proof (submit_session w s) as Hs.
    rewrite submit_fetches. destruct Hs as (Ho & Hsid & Hl). rewrite Ho.
    unfold effective. cbn [filter]. rewrite <- falsy_trim.
    destruct (falsy (endpoint (opts w))).
    + rewrite orb_true_r, !app_nil_r. reflexivity.
    + rewrite orb_false_r, <- app_assoc.
      assert (Hreq : forall m, request_of (submit w s) m = request_of w m).
      { intros m. unfold request_of. now rewrite Ho, Hsid, Hl. }
      rewrite (map_ext (fun a => request_of (submit w s) (trim (input a)))
                       (fun a => request_of w (trim (input a)))
                       (fun a => Hreq (trim (input a)))).
      now destruct (falsy (trim (input s))).
Qed.

(** X4.  Over any run of sends the requests made are exactly one per send
    that had something to send, in order, each a POST of JSON to the
    configured endpoint without credentials, carrying the trimmed message,
    the session and the address of the page.  No request is ever repeated,
    and none is made while no endpoint is configured. *)
Theorem requests_of_a_run sends w :
  fetches (trace (run sends w))
  = fetches (trace w)
    ++ if falsy (endpoint (opts w)) then []
       else map (fun s => request_for w (trim (input s))) (effective sends).
Proof. apply run_requests. Qed.

Lemma appended_diagnostics text who w :
  diagnostics (trace (appended text who w)) = diagnostics (trace w).
Proof.
  unfold diagnostics. rewrite read_appended. cbn.
  destruct (onMessageReceived (opts w)); cbn; now rewrite app_nil_r.
Qed.

Lemma replied_diagnostics texts w :
  diagnostics (trace (replied texts w)) = diagnostics (trace w).
Proof.
  revert w. induction texts as [|s texts IH]; intros w; [reflexivity|].
  cbn. unfold replied in IH. now rewrite IH, appended_diagnostics.
Qed.

Lemma hidden_diagnostics w : diagnostics (trace (hidden w)) = diagnostics (trace w).
Proof.
  unfold diagnostics. rewrite read_hidden.
  generalize (removals (typing_count (messages w)) (messages w)).
  intros l. induction l as [|ms l IH]; cbn; [now rewrite app_nil_r | exact IH].
Qed.

Lemma settled_diagnostics net message w :
  diagnostics (trace (settled net message w))
  = diagnostics (trace w)
    ++ match snd (snd (exchange (endpoint (opts w)) net)) with
       | Some e => [("ChatWidget send error", e)]
       | None => []
       end.
Proof.
  unfold settled. destruct (exchange _ net) as [requested [texts err]]. cbn [snd].
  assert (H1 : diagnostics (trace (replied texts
      (if requested then log (Fetch (request_of w message)) w else w)))
    = diagnostics (trace w)).
  { rewrite replied_diagnostics. destruct requested; [|reflexivity].
    unfold diagnostics. rewrite read_log. cbn. now rewrite app_nil_r. }
  destruct err as [e|]; [|now rewrite H1, app_nil_r].
  rewrite appended_diagnostics. unfold diagnostics at 1. rewrite read_log.
  cbn [error_in]. fold (diagnostics (trace (replied texts
      (if requested then log (Fetch (request_of w message)) w else w)))).
  now rewrite H1.
Qed.

Lemma sent_diagnostics now net w :
  diagnostics (trace (sent now net w))
  = diagnostics (trace w)
    ++ match snd (snd (exchange (endpoint (opts w)) net)) with
       | Some e => [("ChatWidget send error", e)]
       | None => []
       end.
Proof.
  unfold sent. rewrite hidden_diagnostics, settled_diagnostics.
  set (w1 := appended (trim (textarea w)) "user" w).
  assert (Hep : opts (shown now (log (InputValue "") (set_textarea "" w1))) = opts w).
  { cbn [shown log set_messages set_textarea opts]. subst w1.
    now destruct (appended_session (trim (textarea w)) "user" w) as (-> & _). }
  rewrite Hep. f_equal.
  unfold diagnostics at 1. rewrite read_shown. cbn [error_in]. rewrite !app_nil_r.
  rewrite read_log. cbn [error_in set_textarea trace]. rewrite app_nil_r.
  subst w1. apply appended_diagnostics.
Qed.

(** X5.  A send that fails reports exactly one error on the console, under
    the label of the widget, and a send that succeeds reports none.  The
    error is the one the transport threw: the missing endpoint, the reason
    of the network failure, the status with the text of the body (null when
    the text could not be read), or the invalid body. *)
Theorem diagnostics_of_a_send now net w :
  whitespace_only (textarea w) = false ->
  let said := diagnostics (trace (snd (_onSend now net w))) in
  let report e := diagnostics (trace w) ++ [("ChatWidget send error", e)] in
  (falsy (endpoint (opts w)) = true ->
     said = report (Error "ChatWidget: endpoint option required"))
  /\ (falsy (endpoint (opts w)) = false ->
      (forall e, net = Rejected e -> said = report e)
      /\ (forall res, net = Responded res -> ok res = false ->
            said = report (Error ("Bad response: " ++ of_N (status res) ++ " "
                                  ++ match body_text res with
                                     | Some t => t
                                     | None => "null"
                                     end)%string))
      /\ (forall res, net = Responded res -> ok res = true ->
            truthy (body_json res) = false ->
            said = report (Error "Invalid JSON response"))
      /\ (forall res j texts, net = Responded res -> ok res = true ->
            body_json res = Some j -> ToBoolean j = true ->
            policy j = Some texts ->
            said = diagnostics (trace w))).
Proof.
  intros Hfull said report. subst said report. rewrite <- falsy_trim in Hfull.
  rewrite _onSend_run by exact Hfull. cbn [snd]. rewrite sent_diagnostics.
  unfold exchange. split.
  - intros ->. reflexivity.
  - intros ->. split; [|split; [|split]].
    + intros e ->. reflexivity.
    + intros res -> Hok. unfold classify. rewrite Hok. reflexivity.
    + intros res -> Hok Hj. unfold classify. rewrite Hok. cbn [negb].
      destruct (body_json res) as [j|]; [|reflexivity].
      cbn in Hj. rewrite Hj. reflexivity.
    + intros res j texts -> Hok Hj Ht Hp. unfold classify.
      rewrite Hok, Hj, Ht. cbn [negb]. rewrite (policy_resolve _ Hp).
      cbn. now rewrite app_nil_r.
Qed.

(** ** What the transcript holds *)

Lemma trimEnd_cons c s :
  trimEnd (String c s)
  = match trimEnd s with
    | EmptyString => if isWhiteSpace c then EmptyString else String c EmptyString
    | t => String c t
    end.
Proof. reflexivity. Qed.

Lemma trimEnd_idempotent s : trimEnd (trimEnd s) = trimEnd s.
Proof.
  induction s as [|c s IH]; [reflexivity|].
  rewrite trimEnd_cons. destruct (trimEnd s) as [|d t] eqn:Ht.
  - destruct (isWhiteSpace c) eqn:Hc; [reflexivity|].
    rewrite trimEnd_cons. cbn [trimEnd]. now rewrite Hc.
  - rewrite trimEnd_cons, IH. reflexivity.
Qed.

Lemma trimStart_head s :
  trimStart s = "" \/ exists c t, trimStart s = String c t /\ isWhiteSpace c = false.
Proof.
  induction s as [|c s IH]; [now left|].
  cbn. destruct (isWhiteSpace c) eqn:Hc; [exact IH|].
  right. now exists c, s.
Qed.

Lemma trimEnd_head c t :
  isWhiteSpace c = false -> exists t', trimEnd (String c t) = String c t'.
Proof.
  intros Hc. cbn. destruct (trimEnd t); rewrite ?Hc; eauto.
Qed.

Lemma trim_idempotent s : trim (trim s) = trim s.
Proof.
  unfold trim at 2 3.
  destruct (trimStart_head s) as [-> | (c & t & -> & Hc)]; [reflexivity|].
  destruct (@trimEnd_head c t Hc) as [t' Ht'].
  unfold trim. rewrite Ht'. cbn [trimStart]. rewrite Hc, <- Ht'.
  apply trimEnd_idempotent.
Qed.

Lemma run_messages sends w :
  typing_count (messages w) = 0 ->
  messages (run sends w)
  = messages w ++ flat_map (entries (endpoint (opts w))) sends.
Proof.
  revert w. induction sends as [|s sends IH]; intros w Hc.
  - cbn. now rewrite app_nil_r.
  - cbn [run fold_left flat_map]. fold (run sends (submit w s)).
    pose proof (@submit_messages w s Hc) as Hs.
    destruct (submit_session w s) as (Ho & _ & _).
    rewrite IH.
    + rewrite Ho, Hs, <- app_assoc. reflexivity.
    + rewrite Hs, typing_count_app, Hc, entries_no_typing. reflexivity.
Qed.

Lemma user_texts_app ms ms' : user_texts (ms ++ ms') = user_texts ms ++ user_texts ms'.
Proof. apply flat_map_app. Qed.

Lemma user_texts_bots texts : user_texts (map (Msg bot) texts) = [].
Proof. induction texts as [|s texts IH]; [reflexivity | exact IH]. Qed.

Lemma user_texts_entries ep s :
  user_texts (entries ep s)
  = if whitespace_only (input s) then [] else [trim (input s)].
Proof.
  unfold entries. rewrite <- falsy_trim.
  destruct (falsy (trim (input s))); [reflexivity|].
  cbn. now rewrite user_texts_bots.
Qed.

(** X6.  Every user entry a widget ever shows is non-empty and trimmed: it
    is the text of some submitted input with the white space at both ends
    removed, and trimming it again changes nothing. *)
Theorem user_entries_are_trimmed o random href sends :
  user_texts (messages (run sends (new_ChatWidget o random href)))
  = map (fun s => trim (input s)) (effective sends)
  /\ Forall (fun t => falsy t = false /\ trim t = t)
            (user_texts (messages (run sends (new_ChatWidget o random href)))).
Proof.
  rewrite run_messages by reflexivity. cbn [new_ChatWidget messages opts app].
  generalize (endpoint o). intros ep.
  induction sends as [|s sends [IH1 IH2]]; [split; [reflexivity|constructor]|].
  cbn [flat_map]. rewrite user_texts_app, user_texts_entries.
  unfold effective. cbn [filter]. fold (effective sends).
  destruct (whitespace_only (input s)) eqn:Hs; cbn [negb app map].
  - split; assumption.
  - split; [now rewrite IH1|]. constructor; [|exact IH2].
    split; [now rewrite falsy_trim | apply trim_idempotent].
Qed.

(** ** The observer has no say *)

Lemma onSend_messages now net w :
  messages (snd (_onSend now net w))
  = if whitespace_only (textarea w) then messages w
    else strip (messages w)
         ++ Msg user (trim (textarea w))
         :: map (Msg bot) (bot_texts (endpoint (opts w)) net).
Proof.
  rewrite <- falsy_trim. destruct (falsy (trim (textarea w))) eqn:Hin.
  - now rewrite _onSend_noop.
  - rewrite _onSend_run by exact Hin. apply sent_messages.
Qed.

Lemma onSend_textarea now net w :
  textarea (snd (_onSend now net w))
  = if whitespace_only (textarea w) then textarea w else "".
Proof.
  rewrite <- falsy_trim. destruct (falsy (trim (textarea w))) eqn:Hin.
  - now rewrite _onSend_noop.
  - rewrite _onSend_run by exact Hin. apply sent_textarea.
Qed.

Lemma onSend_fetches now net w :
  fetches (trace (snd (_onSend now net w)))
  = fetches (trace w)
    ++ if whitespace_only (textarea w) || falsy (endpoint (opts w)) then []
       else [request_of w (trim (textarea w))].
Proof.
  rewrite <- falsy_trim. destruct (falsy (trim (textarea w))) eqn:Hin.
  - rewrite _onSend_noop by exact Hin. cbn. now rewrite app_nil_r.
  - rewrite _onSend_run by exact Hin. apply sent_fetches.
Qed.

Lemma onSend_diagnostics now net w :
  diagnostics (trace (snd (_onSend now net w)))
  = diagnostics (trace w)
    ++ if whitespace_only (textarea w) then []
       else match snd (snd (exchange (endpoint (opts w)) net)) with
            | Some e => [("ChatWidget send error", e)]
            | None => []
            end.
Proof.
  rewrite <- falsy_trim. destruct (falsy (trim (textarea w))) eqn:Hin.
  - rewrite _onSend_noop by exact Hin. cbn. now rewrite app_nil_r.
  - rewrite _onSend_run by exact Hin. apply sent_diagnostics.
Qed.


(** ** At least one answer *)

Lemma coerce_all_nil rs : coerce_all rs = ([], None) -> rs = [].
Proof.
  destruct rs as [|r rs]; [reflexivity|]. cbn.
  destruct (ToString r); [|discriminate].
  destruct (coerce_all rs). discriminate.
Qed.

Lemma with_apology (texts : list string) : texts ++ [apology] <> [].
Proof. destruct texts; discriminate. Qed.

Lemma resolve_nothing j :
  (let '(texts, err) := resolve j in
   match err with Some _ => texts ++ [apology] | None => texts end) = []
  <-> match get j "reply" with
      | Some (VStr _) => false
      | _ =>
          match get j "replies" with
          | Some (VArr []) => true
          | _ => false
          end
      end = true.
Proof.
  unfold resolve.
  assert (Htext :
    (let '(texts, err) :=
       match get j "text" with
       | Some v =>
           if ToBoolean v
           then match ToString v with
                | Some s => ([s], None)
                | None => ([], Some cannot_convert)
                end
           else ([JSON_stringify j], None)
       | None => ([JSON_stringify j], None)
       end in
     match err with Some _ => texts ++ [apology] | None => texts end) = []
    <-> false = true).
  { split; [|discriminate].
    destruct (get j "text") as [v|]; [|discriminate].
    destruct (ToBoolean v); [|discriminate].
    destruct (ToString v); discriminate. }
  destruct (get j "reply") as [[| | |s| |]|];
    try (split; discriminate);
    destruct (get j "replies") as [[| | | |rs|]|]; try exact Htext;
    (destruct rs as [|r rs]; [split; reflexivity|]);
    (split; [|discriminate]);
    destruct (coerce_all (r :: rs)) as [texts [e|]] eqn:Hc;
    intros Hn; try (now apply with_apology in Hn);
    subst texts; apply coerce_all_nil in Hc; discriminate.
Qed.

Lemma bot_texts_nothing ep net :
  bot_texts ep net = [] <-> answers_nothing ep net = true.
Proof.
  unfold bot_texts, answers_nothing, exchange.
  destruct (falsy ep); [split; discriminate|]. cbn [negb andb].
  destruct net as [e|res]; [split; discriminate|].
  unfold classify. destruct (ok res); cbn [negb andb]; [|split; discriminate].
  destruct (body_json res) as [j|]; [|split; discriminate].
  destruct (ToBoolean j); cbn [andb]; [|split; discriminate].
  apply resolve_nothing.
Qed.

(** X8.  A send always shows at least one bot message after the user's, a
    reply or the apology, with one exception: a success whose body has no
    string [reply] and an empty array [replies] shows none. *)
Theorem silent_only_on_empty_replies now net w :
  whitespace_only (textarea w) = false ->
  messages (snd (_onSend now net w))
  = strip (messages w) ++ [Msg user (trim (textarea w))]
  <-> answers_nothing (endpoint (opts w)) net = true.
Proof.
  intros Hfull. rewrite onSend_messages, Hfull, <- bot_texts_nothing.
  split.
  - intros Hm. apply app_inv_head in Hm. injection Hm as Hm.
    now destruct (bot_texts (endpoint (opts w)) net).
  - now intros ->.
Qed.

(** ** A reply that cannot be converted *)

Lemma coerce_all_stops pre bad post ss :
  sequence (map ToString pre) = Some ss ->
  ToString bad = None ->
  coerce_all (pre ++ bad :: post) = (ss, Some cannot_convert).
Proof.
  revert ss. induction pre as [|r pre IH]; intros ss; cbn.
  - intros [= <-] ->. reflexivity.
  - destruct (ToString r) as [s|]; [|discriminate].
    destruct (sequence (map ToString pre)) as [ss'|]; [|discriminate].
    intros [= <-] Hbad. now rewrite (IH ss').
Qed.

(** X9.  When an element of [replies] cannot be converted to a string (an
    object that carries a [toString] property of its own), the elements
    before it are shown, the ones after it are not, and the apology follows:
    the send fails halfway. *)
Theorem reply_that_cannot_be_converted now res props pre bad post ss w :
  whitespace_only (textarea w) = false ->
  falsy (endpoint (opts w)) = false ->
  ok res = true ->
  body_json res = Some (VObj props) ->
  (forall s, own_property "reply" props <> Some (VStr s)) ->
  own_property "replies" props = Some (VArr (pre ++ bad :: post)) ->
  sequence (map ToString pre) = Some ss ->
  ToString bad = None ->
  messages (snd (_onSend now (Responded res) w))
  = strip (messages w)
    ++ Msg user (trim (textarea w)) :: map (Msg bot) ss ++ [Msg bot apology]
  /\ diagnostics (trace (snd (_onSend now (Responded res) w)))
     = diagnostics (trace w) ++ [("ChatWidget send error", cannot_convert)].
Proof.
  intros Hfull Hep Hok Hj Hreply Hreplies Hpre Hbad.
  rewrite onSend_messages, onSend_diagnostics, Hfull.
  assert (Hx : exchange (endpoint (opts w)) (Responded res)
               = (true, (ss, Some cannot_convert))).
  { unfold exchange, classify. rewrite Hep, Hok, Hj. cbn [negb ToBoolean].
    unfold resolve. cbn [get]. rewrite Hreplies.
    rewrite (@coerce_all_stops pre bad post ss Hpre Hbad).
    destruct (own_property "reply" props) as [[| | |s| |]|] eqn:Hr; try reflexivity.
    now destruct (Hreply s). }
  unfold bot_texts. rewrite Hx. cbn [snd]. rewrite map_app. split; reflexivity.
Qed.

(** ** The keyboard *)

(** X10.  A key press in the text area sends exactly when the key is Enter
    and either Ctrl or Meta is held or Shift is not: Shift+Enter alone is
    left to the browser, and any other key does nothing.  The default action
    is prevented only for Enter without Ctrl or Meta. *)
Theorem keyboard_submits e now net w :
  onKeydown e now net w
  = if submits e
    then (Normal (negb (ctrlKey e || metaKey e)), snd (_onSend now net w))
    else (Normal false, w).
Proof.
  pose proof (onSend_completes now net w) as Hn.
  unfold onKeydown, submits.
  destruct (String.eqb (key e) "Enter"), (ctrlKey e), (metaKey e), (shiftKey e);
    cbn [andb orb negb]; try reflexivity;
    unfold bind, ret; destruct (_onSend now net w) as [c w'];
    cbn in Hn; subst c; reflexivity.
Qed.

(** ** The panel *)

Lemma appended_isOpen text who w : isOpen (appended text who w) = isOpen w.
Proof. unfold appended. destruct (onMessageReceived (opts w)); reflexivity. Qed.

Lemma replied_isOpen texts w : isOpen (replied texts w) = isOpen w.
Proof.
  revert w. induction texts as [|s texts IH]; intros w; [reflexivity|].
  cbn. unfold replied in IH. now rewrite IH, appended_isOpen.
Qed.

Lemma settled_isOpen net message w : isOpen (settled net message w) = isOpen w.
Proof.
  unfold settled. destruct (exchange _ net) as [requested [texts [e|]]].
  - rewrite appended_isOpen. cbn [log isOpen]. rewrite replied_isOpen.
    now destruct requested.
  - rewrite replied_isOpen. now destruct requested.
Qed.

Lemma submit_isOpen w s : isOpen (submit w s) = isOpen w.
Proof.
  unfold submit. destruct (falsy (trim (input s))) eqn:Hin.
  - now rewrite _onSend_noop.
  - rewrite _onSend_run by exact Hin. cbn [snd]. unfold sent.
    cbn [hidden log_all set_messages isOpen]. rewrite settled_isOpen.
    cbn [shown log set_messages set_textarea isOpen]. rewrite appended_isOpen.
    reflexivity.
Qed.

Lemma act_isOpen p a : isOpen (this (act p a)) = open_after (isOpen (this p)) a.
Proof.
  destruct a as [| | | |s]; cbn [act open_after].
  - unfold toggle. now destruct (isOpen (this p)).
  - reflexivity.
  - reflexivity.
  - unfold timer_fires. now destruct (timers p).
  - apply submit_isOpen.
Qed.

Lemma act_coherent p a : coherent p -> coherent (act p a).
Proof.
  intros Hp. destruct a as [| | | |s]; cbn [act].
  - unfold toggle. destruct (isOpen (this p)).
    + unfold coherent. cbn. split; discriminate.
    + unfold coherent. cbn. split; reflexivity.
  - unfold coherent. cbn. split; discriminate.
  - unfold coherent. cbn. split; reflexivity.
  - unfold timer_fires. destruct (timers p); exact Hp.
  - unfold coherent in *. cbn [on_widget this panel_display panel_aria_hidden].
    now rewrite submit_isOpen.
Qed.

(** X11.  Whatever happens to a page after the widget is constructed,
    clicks, calls of [open], timers and sends in any order, the panel shows
    what [isOpen] says: open, it is displayed as a flex box and not hidden
    from assistive technology; closed, it is neither.  It starts closed, a
    toggle flips it, and neither a send nor a timer changes it. *)
Theorem panel_follows_isOpen o random href l :
  coherent (acts l (new_Page o random href))
  /\ isOpen (this (acts l (new_Page o random href))) = fold_left open_after l false.
Proof.
  assert (Hgen : forall p, coherent p ->
            coherent (acts l p)
            /\ isOpen (this (acts l p)) = fold_left open_after l (isOpen (this p))).
  { induction l as [|a l IH]; intros p Hp; [now split|].
    cbn [acts fold_left]. fold (acts l (act p a)).
    destruct (IH (act p a) (@act_coherent p a Hp)) as [H1 H2].
    split; [exact H1|]. now rewrite H2, act_isOpen. }
  apply Hgen. unfold coherent. cbn. split; discriminate.
Qed.

Lemma alike_refl w : alike w w.
Proof. repeat split. Qed.

Lemma alike_submit w w' s : alike w w' -> alike (submit w s) (submit w' s).
Proof.
  intros (Ho & Hs & Hl & Hm & Ht & Hf & Hd).
  destruct (submit_session w s) as (Ho1 & Hs1 & Hl1).
  destruct (submit_session w' s) as (Ho2 & Hs2 & Hl2).
  unfold alike. rewrite Ho1, Ho2, Hs1, Hs2, Hl1, Hl2.
  split; [exact Ho|]. split; [exact Hs|]. split; [exact Hl|].
  unfold submit.
  rewrite !onSend_messages, !onSend_textarea, !onSend_fetches, !onSend_diagnostics.
  cbn [set_textarea messages textarea opts trace].
  unfold request_of. cbn [set_textarea opts sessionId location_href].
  rewrite Ho, Hs, Hl, Hm, Hf, Hd. repeat split.
Qed.

Lemma act_alike p a w :
  alike (this p) w ->
  alike (this (act p a)) (match a with Send s => submit w s | _ => w end).
Proof.
  intros Hw. destruct a as [| | | |s]; cbn [act].
  - unfold toggle. destruct (isOpen (this p)); exact Hw.
  - exact Hw.
  - exact Hw.
  - unfold timer_fires. destruct (timers p); [exact Hw|].
    destruct Hw as (Ho & Hs & Hl & Hm & Ht & Hf & Hd).
    unfold alike, _scrollBottom, emit, modify. cbn [snd this].
    unfold fetches, diagnostics in *. rewrite !read_log. cbn.
    rewrite !app_nil_r. repeat split; assumption.
  - cbn [on_widget this]. now apply alike_submit.
Qed.

(** X12.  Opening, closing and toggling the panel, and the timers that
    [open] sets, leave the conversation alone: the transcript, the text area,
    the requests made and the errors reported are those of the sends alone,
    as if the panel had never been touched. *)
Theorem panel_leaves_the_conversation_alone l p :
  alike (this (acts l p)) (run (sends_of l) (this p)).
Proof.
  assert (Hgen : forall p w, alike (this p) w ->
            alike (this (acts l p)) (run (sends_of l) w)).
  { induction l as [|a l IH]; intros q w Hw; [exact Hw|].
    cbn [acts fold_left sends_of flat_map]. fold (acts l (act q a)).
    fold (sends_of l). pose proof (@act_alike q a w Hw) as Ha.
    destruct a as [| | | |s]; cbn [app]; now apply IH. }
  apply Hgen, alike_refl.
Qed.

Lemma appended_set_isOpen b text who w :
  appended text who (set_isOpen b w) = set_isOpen b (appended text who w).
Proof.
  unfold appended, rendered. cbn.
  destruct (onMessageReceived (opts w)); reflexivity.
Qed.

Lemma replied_set_isOpen b texts w :
  replied texts (set_isOpen b w) = set_isOpen b (replied texts w).
Proof.
  revert w. induction texts as [|s texts IH]; intros w; [reflexivity|].
  cbn [replied fold_left]. unfold replied in IH.
  now rewrite appended_set_isOpen, IH.
Qed.

Lemma resumed_set_isOpen b net q w :
  resumed net q (set_isOpen b w) = set_isOpen b (resumed net q w).
Proof.
  unfold resumed. destruct (outcome net q) as [texts [e|]].
  - rewrite replied_set_isOpen.
    change (log (ConsoleError "ChatWidget send error" e) (set_isOpen b (replied texts w)))
      with (set_isOpen b (log (ConsoleError "ChatWidget send error" e) (replied texts w))).
    rewrite appended_set_isOpen. reflexivity.
  - rewrite replied_set_isOpen. reflexivity.
Qed.

Lemma resumed_isOpen net q w : isOpen (resumed net q w) = isOpen w.
Proof.
  unfold resumed. destruct (outcome net q) as [texts [e|]];
    cbn [hidden log_all set_messages isOpen].
  - rewrite appended_isOpen. cbn [log isOpen]. apply replied_isOpen.
  - apply replied_isOpen.
Qed.

(** X13.  Closing the panel, opening it or toggling it while a send is
    pending does not cancel the send or change what it renders: the
    resumption does the same to the widget whether the panel was touched
    before it or after it, and it never opens or closes the panel itself. *)
Theorem pending_send_survives_the_panel net q p :
  let resume_on p := on_widget (fun w => snd (resumption net q w)) p in
  resume_on (close p) = close (resume_on p)
  /\ resume_on (open p) = open (resume_on p)
  /\ resume_on (toggle p) = toggle (resume_on p)
  /\ isOpen (this (resume_on p)) = isOpen (this p).
Proof.
  intros resume_on. subst resume_on.
  assert (Hk : isOpen (this (on_widget (fun w => snd (resumption net q w)) p))
               = isOpen (this p)).
  { cbn [on_widget this]. rewrite resumption_run. apply resumed_isOpen. }
  assert (Hc : on_widget (fun w => snd (resumption net q w)) (close p)
               = close (on_widget (fun w => snd (resumption net q w)) p)).
  { unfold on_widget, close. cbn [this panel_display panel_aria_hidden
      textarea_focused timers].
    rewrite !resumption_run. cbn [snd]. now rewrite resumed_set_isOpen. }
  assert (Ho : on_widget (fun w => snd (resumption net q w)) (open p)
               = open (on_widget (fun w => snd (resumption net q w)) p)).
  { unfold on_widget, open. cbn [this panel_display panel_aria_hidden
      textarea_focused timers].
    rewrite !resumption_run. cbn [snd]. now rewrite resumed_set_isOpen. }
  split; [exact Hc|]. split; [exact Ho|]. split; [|exact Hk].
  unfold toggle. rewrite Hk. destruct (isOpen (this p)); assumption.
Qed.

(** ** Building elements *)










(** * The claims on a widget *)

Import Demo.

(** ** The examples of the specification, run on the code *)

Example of_N_500 : of_N 500 = "500".
Proof. reflexivity. Qed.

Example trim_padded : trim "  hi there   " = "hi there".
Proof. reflexivity. Qed.

Example trim_blank : trim "   " = "".
Proof. reflexivity. Qed.

Example reply_wins :
  messages (snd (_onSend 17 (answers (VObj [("reply", VStr "A");
                                            ("replies", VArr [VStr "B"]);
                                            ("text", VStr "C")]))
                         (typed "hi")))
  = [Msg user "hi"; Msg bot "A"].
Proof. reflexivity. Qed.

Example replies_in_order :
  messages (snd (_onSend 17 (answers (VObj [("replies", VArr [VStr "x"; VStr "y"])]))
                         (typed "hi")))
  = [Msg user "hi"; Msg bot "x"; Msg bot "y"].
Proof. reflexivity. Qed.

Example no_replies :
  fst (_onSend 17 (answers (VObj [("replies", VArr [])])) (typed "hi")) = Normal tt
  /\ messages (snd (_onSend 17 (answers (VObj [("replies", VArr [])])) (typed "hi")))
     = [Msg user "hi"].
Proof. split; vm_compute; reflexivity. Qed.

Example text_number :
  messages (snd (_onSend 17 (answers (VObj [("text", VNum "42")])) (typed "hi")))
  = [Msg user "hi"; Msg bot "42"].
Proof. reflexivity. Qed.

Example anything_else :
  messages (snd (_onSend 17 (answers (VObj [("foo", VStr "bar")])) (typed "hi")))
  = [Msg user "hi"; Msg bot ("{" ++ quote "foo" ++ ":" ++ quote "bar" ++ "}")%string].
Proof. reflexivity. Qed.

Example status_500 :
  messages (snd (_onSend 17 fails (typed "hi"))) = [Msg user "hi"; Msg bot apology]
  /\ In (ConsoleError "ChatWidget send error" (Error "Bad response: 500 oops"))
        (trace (snd (_onSend 17 fails (typed "hi")))).
Proof. split; [reflexivity|]. vm_compute. tauto. Qed.

(** A falsy body is taken for a body that did not parse. *)
Example body_zero :
  messages (snd (_onSend 17 (answers (VNum "0")) (typed "hi")))
  = [Msg user "hi"; Msg bot apology].
Proof. reflexivity. Qed.

(** An element that cannot be converted ends the resolution: the replies
    before it stay, and the apology follows. *)
Example reply_not_convertible :
  messages (snd (_onSend 17
    (answers (VObj [("replies", VArr [VStr "a"; VObj [("toString", VNum "1")]; VStr "b"])]))
    (typed "hi")))
  = [Msg user "hi"; Msg bot "a"; Msg bot apology].
Proof. reflexivity. Qed.

Example array_as_text :
  ToString (VArr [VNum "1"; VNull; VArr [VBool true; VStr "s"]; VObj []])
  = Some "1,,true,s,[object Object]".
Proof. reflexivity. Qed.

(** ** C1 *)

Lemma reply_resolution_precedence_witness :
  fst (sendMessageToEndpoint
         (answers (VObj [("replies", VArr [VStr "x"; VNum "7"]); ("text", VStr "C")]))
         "hi" widget) = Normal tt
  /\ messages (snd (sendMessageToEndpoint
         (answers (VObj [("replies", VArr [VStr "x"; VNum "7"]); ("text", VStr "C")]))
         "hi" widget))
     = [Msg bot "x"; Msg bot "7"].
Proof.
  exact (@reply_resolution_precedence "hi"
           {| status := 200; body_text := None;
              body_json := Some (VObj [("replies", VArr [VStr "x"; VNum "7"]);
                                       ("text", VStr "C")]) |}
           (VObj [("replies", VArr [VStr "x"; VNum "7"]); ("text", VStr "C")])
           ["x"; "7"] widget eq_refl eq_refl eq_refl eq_refl eq_refl).
Defined.

(** The policy as stated fails on a [text] that is falsy, which the code
    passes on to the last rule, and on a body that is itself falsy, which the
    code rejects. *)
Lemma stated_policy_counterexample :
  ~ (forall j texts,
       ToBoolean j = true ->
       stated_policy j = Some texts ->
       messages (snd (sendMessageToEndpoint (answers j) "hi" widget))
       = messages widget ++ map (Msg bot) texts)
  /\ stated_policy (VObj [("text", VBool false)]) = Some ["false"]
  /\ messages (snd (sendMessageToEndpoint (answers (VObj [("text", VBool false)])) "hi" widget))
     = [Msg bot ("{" ++ quote "text" ++ ":false}")%string]
  /\ stated_policy (VBool false) = Some ["false"]
  /\ sendMessageToEndpoint (answers (VBool false)) "hi" widget
     = (Abrupt (Error "Invalid JSON response"),
        log (Fetch (request_of widget "hi")) widget).
Proof.
  split; [|repeat split].
  intros Hstated.
  specialize (Hstated (VObj [("text", VBool false)]) ["false"] eq_refl eq_refl).
  vm_compute in Hstated. discriminate.
Qed.

(** ** C2 *)

Lemma failure_fallback_witness :
  fst (_onSend 17 fails (typed "  hi ")) = Normal tt
  /\ messages (snd (_onSend 17 fails (typed "  hi ")))
     = [Msg user "hi"; Msg bot apology]
  /\ typing_count (messages (snd (_onSend 17 fails (typed "  hi ")))) = 0
  /\ (forall message,
        (exists e, fst (sendMessageToEndpoint fails message (typed "  hi ")) = Abrupt e)
        /\ messages (snd (sendMessageToEndpoint fails message (typed "  hi "))) = []).
Proof.
  exact (@failure_fallback 17%N fails (typed "  hi ") eq_refl eq_refl).
Defined.

(** ** C3 *)

Lemma transcript_ordering_witness :
  messages (run three_sends widget)
  = [Msg user "one"; Msg bot "a"; Msg bot "b";
     Msg user "two"; Msg bot apology;
     Msg user "three"; Msg bot "c"].
Proof.
  exact (@transcript_ordering three_sends widget eq_refl).
Defined.

(** ** C4 *)

Lemma typing_indicator_invariant_witness :
  at_rest (snd (_onSend 17 fails (typed "hi"))).
Proof.
  refine (proj1 typing_indicator_invariant 17%N fails (typed "hi") _).
  split; [reflexivity|constructor].
Defined.

(** ** C5 *)

Lemma empty_input_noop_witness :
  _onSend 17 fails (typed "   ") = (Normal tt, typed "   ").
Proof.
  exact (@empty_input_noop 17%N fails (typed "   ") eq_refl).
Defined.

(** ** C6 *)

Lemma session_stability_witness :
  Forall (fun r => get (payload r) "sessionId" = Some (VStr "host-session"))
         (fetches (trace (run three_sends widget)))
  /\ sessionId (run three_sends widget) = "host-session"
  /\ (forall s, Some "host-session" = Some s -> falsy s = false -> "host-session" = s).
Proof.
  exact (@session_stability options "k3j2h1g" "https://example.test/page" three_sends).
Defined.

(** A host that supplies the empty string gets a generated identity. *)
Lemma empty_session_id_counterexample :
  ~ (forall o random href s,
       opts_sessionId o = Some s -> sessionId (new_ChatWidget o random href) = s)
  /\ sessionId (new_ChatWidget
                  {| endpoint := "https://example.test/webhook/chat";
                     opts_sessionId := Some "";
                     onMessageReceived := None |}
                  "k3j2h1g" "https://example.test/page")
     = "sess_k3j2h1g".
Proof.
  split; [|reflexivity].
  intros Hstated.
  specialize (Hstated {| endpoint := "https://example.test/webhook/chat";
                         opts_sessionId := Some "";
                         onMessageReceived := None |}
                      "k3j2h1g" "https://example.test/page" "" eq_refl).
  discriminate.
Qed.

(** ** C7 *)

Lemma observer_isolation_witness :
  fst (_appendMsg "hello" "bot" widget) = Normal tt
  /\ messages (snd (_appendMsg "hello" "bot" widget)) = [Msg bot "hello"]
  /\ In (ObserverCall (hook_arg "bot" "hello" "host-session")
                      (Some (Error "observer failed")))
        (trace (snd (_appendMsg "hello" "bot" widget))).
Proof.
  exact (@observer_isolation "hello" "bot" widget grumpy (Error "observer failed")
           eq_refl eq_refl).
Defined.

(** ** C8 *)

Lemma observer_notified_once_witness :
  messages (snd (_appendMsg "hello" "user" widget)) = [Msg user "hello"]
  /\ observer_calls (trace (snd (_appendMsg "hello" "user" widget)))
     = [VObj [("who", VStr "user"); ("text", VStr "hello");
              ("sessionId", VStr "host-session")]]
  /\ ("user" = "user" \/ "user" = "bot" -> name_of (class_of "user") = "user").
Proof.
  exact (@observer_notified_once "hello" "user" widget grumpy eq_refl).
Defined.

(** The object the observer gets has no field named author. *)
Lemma observer_argument_counterexample :
  ~ (exists arg,
       observer_calls (trace (snd (_appendMsg "hello" "user" widget))) = [arg]
       /\ get arg "author" = Some (VStr "user")
       /\ get arg "text" = Some (VStr "hello")
       /\ get arg "sessionId" = Some (VStr "host-session"))
  /\ (forall arg,
        In arg (observer_calls (trace (snd (_appendMsg "hello" "user" widget)))) ->
        get arg "author" = None /\ get arg "who" = Some (VStr "user")).
Proof.
  split.
  - intros (arg & Hcalls & Hauthor & _).
    vm_compute in Hcalls. injection Hcalls as <-. discriminate.
  - intros arg Hin. vm_compute in Hin. destruct Hin as [<- | []].
    split; reflexivity.
Qed.

(** ** C9 *)

Lemma trimmed_input_is_sent_witness :
  messages (snd (_appendMsg "hi there" "user" (typed "  hi there ")))
  = [Msg user "hi there"]
  /\ (exists rest,
        trace (snd (_onSend 17 fails (typed "  hi there ")))
        = trace (snd (_appendMsg "hi there" "user" (typed "  hi there ")))
          ++ InputValue "" :: rest)
  /\ textarea (snd (_onSend 17 fails (typed "  hi there "))) = ""
  /\ messages (snd (_onSend 17 fails (typed "  hi there ")))
     = [Msg user "hi there"; Msg bot apology]
  /\ fetches (trace (snd (_onSend 17 fails (typed "  hi there "))))
     = [request_of widget "hi there"]
  /\ get (payload (request_of widget "hi there")) "message" = Some (VStr "hi there").
Proof.
  exact (@trimmed_input_is_sent 17%N fails (typed "  hi there ") eq_refl).
Defined.

(** ** C10 *)

Lemma typing_indicator_is_silent_witness :
  observer_calls (trace (snd (_showTyping 17 (typed "hi")))) = []
  /\ observer_calls (trace (snd (_hideTyping "17" (typed "hi")))) = []
  /\ observer_calls (trace (snd (_onSend 17 fails (typed "hi"))))
     = [hook_arg "user" "hi" "host-session"; hook_arg "bot" apology "host-session"].
Proof.
  exact (@typing_indicator_is_silent 17%N fails "17" (typed "hi")).
Defined.

(** * Further properties on a widget *)

Import Scenario.

Example shift_enter_is_left_alone :
  onKeydown {| key := "Enter"; ctrlKey := false; metaKey := false; shiftKey := true |}
            17 fails (typed "hi")
  = (Normal false, typed "hi").
Proof. reflexivity. Qed.

Example ctrl_shift_enter_sends :
  messages (snd (onKeydown
    {| key := "Enter"; ctrlKey := true; metaKey := false; shiftKey := true |}
    17 fails (typed "hi")))
  = [Msg user "hi"; Msg bot apology].
Proof. vm_compute. reflexivity. Qed.

Example toggled_three_times :
  isOpen (this (acts [Toggle; Send {| input := "hi"; at_time := 1; answer := fails |};
                      TimerFires; Toggle; Toggle]
                     (new_Page options "k3j2h1g" "https://example.test/page")))
  = true.
Proof. vm_compute. reflexivity. Qed.

Lemma overlapping_sends_witness :
  exists ps w2 w3,
    both_submitted crossing widget = (Normal ps, w2)
    /\ messages w2
       = [Msg user "one"; Typing "1"; Msg user "two"; Typing "2"]
    /\ typing_count (messages w2) = 2
    /\ one_answered crossing ps w2 = (Normal tt, w3)
    /\ typing_count (messages w3) = 0
    /\ messages (snd (overlapping crossing widget))
       = [Msg user "one"; Msg user "two"; Msg bot "b"; Msg bot "a"].
Proof.
  exact (@overlapping_sends crossing widget eq_refl eq_refl eq_refl).
Defined.

Lemma diagnostics_of_a_send_witness :
  diagnostics (trace (snd (_onSend 17 fails (typed "hi"))))
  = [("ChatWidget send error", Error "Bad response: 500 oops")].
Proof.
  exact (proj1 (proj2 (proj2 (@diagnostics_of_a_send 17%N fails (typed "hi") eq_refl)
                        eq_refl))
           {| status := 500; body_text := Some "oops"; body_json := None |}
           eq_refl eq_refl).
Defined.

Lemma silent_only_on_empty_replies_witness :
  messages (snd (_onSend 17 (answers (VObj [("replies", VArr [])])) (typed "hi")))
  = [Msg user "hi"].
Proof.
  exact (proj2 (@silent_only_on_empty_replies 17%N
                  (answers (VObj [("replies", VArr [])])) (typed "hi") eq_refl)
           eq_refl).
Defined.

Lemma reply_that_cannot_be_converted_witness :
  messages (snd (_onSend 17 (Responded half_good) (typed "hi")))
  = [Msg user "hi"; Msg bot "a"; Msg bot apology]
  /\ diagnostics (trace (snd (_onSend 17 (Responded half_good) (typed "hi"))))
     = [("ChatWidget send error", cannot_convert)].
Proof.
  refine (@reply_that_cannot_be_converted 17%N half_good
            [("replies", VArr [VStr "a"; VObj [("toString", VNum "1")]; VStr "b"])]
            [VStr "a"] (VObj [("toString", VNum "1")]) [VStr "b"] ["a"]
            (typed "hi") eq_refl eq_refl eq_refl eq_refl _ eq_refl eq_refl eq_refl).
  intros s. discriminate.
Defined.


